(** * Lib_Pal_RAG: document processing, retrieval and the chat session

    A shallow embedding of [src/document_processor.py] ([DocumentProcessor]),
    [src/rag_pipeline.py] ([RAGPipeline]), [src/gemini_client.py]
    ([GeminiClient]), [src/vector_store.py] ([create_vector_store],
    [search_similar_documents]) and of the session logic of [src/app.py].
    The libraries (PyPDF2, python-docx, codecs, FAISS, the genai client) are
    type classes.

    Python strings are modelled as [list ascii] (one element per code point,
    ASCII texts only); positions and lengths are [Z], as Python's [int]. *)

From Stdlib Require Import Ascii String ZArith Bool Lia List Permutation.
From Stdlib Require Import QArith Numbers.DecimalString Sorting.Sorted.
Import ListNotations.

Open Scope Z_scope.

(** ** Python strings *)
Module PyStr.

Definition pystr := list ascii.

(** A string literal. *)
Definition lit (s : string) : pystr := list_ascii_of_string s.

(** [len(s)] *)
Definition len (s : pystr) : Z := Z.of_nat (List.length s).

(** Python's normalisation of a slice or search bound [i] on a string of
    length [n]: negative bounds count from the end, and bounds are clamped to
    [0 .. n]. *)
Definition norm_index (n i : Z) : Z :=
  if i <? 0 then Z.max 0 (i + n) else Z.min i n.

(** [s[i:j]] *)
Definition slice (s : pystr) (i j : Z) : pystr :=
  let a := norm_index (len s) i in
  let b := norm_index (len s) j in
  firstn (Z.to_nat (b - a)) (skipn (Z.to_nat a) s).

(** Positions [a + k - 1] down to [a]: the last one holding [c], or [-1]. *)
Fixpoint rfind_from (c : ascii) (s : pystr) (a : Z) (k : nat) : Z :=
  match k with
  | O => -1
  | S k' =>
      if (nth (Z.to_nat (a + Z.of_nat k')) s " "%char =? c)%char
      then a + Z.of_nat k'
      else rfind_from c s a k'
  end.

(** [s.rfind(c, i, j)] for a one-character [c]: the highest index in the
    normalised range [[i, j)] holding [c], or [-1]. *)
Definition rfind (s : pystr) (c : ascii) (i j : Z) : Z :=
  let a := norm_index (len s) i in
  let b := norm_index (len s) j in
  rfind_from c s a (Z.to_nat (b - a)).

(** [str.isspace] on one ASCII character: tab, line feed, vertical tab, form
    feed, carriage return, the separators 0x1c..0x1f and space. *)
Definition is_space (c : ascii) : bool :=
  let n := nat_of_ascii c in
  ((9 <=? n) && (n <=? 13))%nat || ((28 <=? n) && (n <=? 32))%nat.

Fixpoint lstrip (s : pystr) : pystr :=
  match s with
  | [] => []
  | c :: s' => if is_space c then lstrip s' else s
  end.

(** [s.strip()] *)
Definition strip (s : pystr) : pystr := rev (lstrip (rev (lstrip s))).

End PyStr.
Import PyStr.

(** ** [DocumentProcessor._split_text_into_chunks] *)
Module Chunker.

Section Split.

(** [self.chunk_size] and [self.chunk_overlap] *)
Variable chunk_size chunk_overlap : Z.
Variable text : pystr.

(** Lines 128-145: the end of the window that starts at [start]. *)
Definition cut_end (start : Z) : Z :=
  let end_ := start + chunk_size in
  if end_ <? len text then
    let last_period := rfind text "." start end_ in
    let last_exclamation := rfind text "!" start end_ in
    let last_question := rfind text "?" start end_ in
    let sentence_end := Z.max (Z.max last_period last_exclamation) last_question in
    if start <? sentence_end then sentence_end + 1
    else
      let last_space := rfind text " " start end_ in
      if start <? last_space then last_space else end_
  else end_.

(** Lines 147-149: the chunk appended for the window [[start, end_)]. *)
Definition push_chunk (chunks : list pystr) (start end_ : Z) : list pystr :=
  let chunk := strip (slice text start end_) in
  match chunk with
  | [] => chunks
  | _ => chunks ++ [chunk]
  end.

(** Lines 127-156: the [while] loop, run for at most [fuel] iterations; [None]
    when the loop has not left after [fuel] iterations. *)
Fixpoint split_loop (fuel : nat) (start : Z) (chunks : list pystr)
  : option (list pystr) :=
  match fuel with
  | O => None
  | S fuel' =>
      if start <? len text then
        let end_ := cut_end start in
        let chunks' := push_chunk chunks start end_ in
        let start' := end_ - chunk_overlap in
        if start' <=? 0 then Some chunks'
        else split_loop fuel' start' chunks'
      else Some chunks
  end.

(** Lines 119-156. *)
Definition split_text_into_chunks (fuel : nat) : option (list pystr) :=
  if len text <=? chunk_size then Some [text]
  else split_loop fuel 0 [].

(** The starts of the windows [split_loop] cuts, in order, for a run that
    leaves the loop within [fuel] iterations. *)
Fixpoint loop_windows (fuel : nat) (start : Z) : option (list Z) :=
  match fuel with
  | O => None
  | S fuel' =>
      if start <? len text then
        let start' := cut_end start - chunk_overlap in
        if start' <=? 0 then Some [start]
        else option_map (cons start) (loop_windows fuel' start')
      else Some []
  end.

End Split.

End Chunker.

(** ** [GeminiClient] and [RAGPipeline] *)
Module Pipeline.

(** A call that returns a value or raises an [Exception] whose [str(e)] is
    the message. *)
Inductive exc (A : Type) : Type :=
| Ok (a : A)
| Raise (msg : pystr).
Arguments Ok {A} a.
Arguments Raise {A} msg.

(** [except Exception as e: handler(str(e))] *)
Definition try_except {A} (m : exc A) (handler : pystr -> exc A) : exc A :=
  match m with
  | Ok a => Ok a
  | Raise e => handler e
  end.

Definition nl : pystr := [ascii_of_nat 10].

(** A metadata dict, in insertion order, with each value as [str] shows it. *)
Definition metadata_dict := list (pystr * pystr).

(** [d.get(k, default)] *)
Fixpoint dict_get (d : metadata_dict) (k default : pystr) : pystr :=
  match d with
  | [] => default
  | (k', v) :: d' => if list_eq_dec ascii_dec k k' then v else dict_get d' k default
  end.

(** [str(n)] for an [int]. *)
Definition str_int (n : Z) : pystr := lit (NilEmpty.string_of_int (Z.to_int n)).

(** A LangChain [Document]: [page_content] and [metadata]. *)
Record Document := {
  page_content : pystr;
  doc_metadata : metadata_dict
}.

(** The dicts [{"content", "metadata", "score"}] of the retrieved hits and of
    the formatted sources. Scores are modelled as rationals. *)
Record DocDict := {
  content : pystr;
  metadata : metadata_dict;
  score : Q
}.

(** The dict [{"answer", "sources"}] returned by [query]. *)
Record QueryResponse := {
  answer : pystr;
  sources : list DocDict
}.

(** The FAISS store: [similarity_search_with_score(query, k=k)]. *)
Class VectorStore (VS : Type) := {
  similarity_search_with_score : VS -> pystr -> Z -> exc (list (Document * Q))
}.

(** The [genai] client: [client.models.generate_content(model=..., contents=...)]
    gives a response whose [text] is [None] or a string ([None] also stands
    for a missing response). *)
Class GenAIClient (C : Type) := {
  generate_content : C -> pystr -> pystr -> exc (option pystr)
}.

Section Pipeline.
Context {VS C : Type} `{VectorStore VS} `{GenAIClient C}.

(** [GeminiClient], once constructed. *)
Record GeminiClient := {
  model_name : pystr;
  client : C
}.

Definition empty_response_apology : pystr :=
  lit "I apologize, but I wasn't able to generate a response. Please try again.".

(** [GeminiClient.generate_response] (src/gemini_client.py, lines 26-50). *)
Definition generate_response (g : GeminiClient) (prompt : pystr) : exc pystr :=
  match generate_content (client g) (model_name g) prompt with
  | Ok (Some ((_ :: _) as text)) => Ok (strip text)
  | Ok _ => Ok empty_response_apology
  | Raise e => Raise (lit "Failed to generate response: " ++ e)
  end.

Record RAGPipeline := {
  vector_store : VS;
  gemini_client : GeminiClient;
  max_context_length : Z
}.

(** The dict built for one [(doc, score)] result (lines 61-65). *)
Definition hit_of (r : Document * Q) : DocDict :=
  {| content := page_content (fst r); metadata := doc_metadata (fst r);
     score := snd r |}.

(** One step of [list.sort(key=score, reverse=True)], which is stable: [x]
    goes after every element whose score is at least its own. *)
Fixpoint insert_by_score (x : DocDict) (l : list DocDict) : list DocDict :=
  match l with
  | [] => [x]
  | y :: l' => if Qle_bool (score x) (score y) then y :: insert_by_score x l'
               else x :: l
  end.

Definition sort_by_score_desc (l : list DocDict) : list DocDict :=
  fold_left (fun acc x => insert_by_score x acc) l [].

(** [_retrieve_documents] (lines 53-75). *)
Definition retrieve_documents (p : RAGPipeline) (query : pystr) (k : Z)
  : list DocDict :=
  match similarity_search_with_score (vector_store p) query k with
  | Ok results => sort_by_score_desc (map hit_of results)
  | Raise _ => []
  end.

(** Line 84: the block of the document at [enumerate] index [i]. *)
Definition doc_text (i : Z) (doc : DocDict) : pystr :=
  lit "[Source " ++ str_int (i + 1) ++ lit " - " ++
  dict_get (metadata doc) (lit "source") (lit "Unknown") ++ lit "]" ++ nl ++
  content doc ++ nl.

(** Lines 79-91: the [context_parts] kept under the budget [max_len], from
    index [i] on with [current_length] characters already kept. *)
Fixpoint context_parts (max_len i current_length : Z) (docs : list DocDict)
  : list pystr :=
  match docs with
  | [] => []
  | doc :: docs' =>
      let t := doc_text i doc in
      if max_len <? current_length + len t then []
      else t :: context_parts max_len (i + 1) (current_length + len t) docs'
  end.

(** [sep.join(parts)] *)
Fixpoint join (sep : pystr) (parts : list pystr) : pystr :=
  match parts with
  | [] => []
  | [x] => x
  | x :: parts' => x ++ sep ++ join sep parts'
  end.

(** [_prepare_context] (lines 77-96). *)
Definition prepare_context (p : RAGPipeline) (docs : list DocDict) : pystr :=
  join nl (context_parts (max_context_length p) 0 0 docs).

(** Lines 102-117. *)
Definition build_prompt (question context : pystr) : pystr :=
  lit "Based on the following context from uploaded documents, please answer the user's question. " ++ nl ++
  lit "If the context doesn't contain enough information to answer the question, please say so clearly." ++ nl ++ nl ++
  lit "Context:" ++ nl ++ context ++ nl ++ nl ++
  lit "Question: " ++ question ++ nl ++ nl ++
  lit "Instructions:" ++ nl ++
  lit "- Provide a clear, accurate, and helpful answer based on the context" ++ nl ++
  lit "- If information is incomplete or unclear, mention this" ++ nl ++
  lit "- Reference specific sources when possible" ++ nl ++
  lit "- If the context doesn't contain relevant information, state this clearly" ++ nl ++
  lit "- Be conversational but informative" ++ nl ++ nl ++
  lit "Answer:".

Definition is_empty (s : pystr) : bool :=
  match s with [] => true | _ => false end.

Definition no_answer_apology : pystr :=
  lit "I was unable to generate an answer to your question. Please try rephrasing your question or check if your documents contain relevant information.".

Definition generation_error_prefix : pystr :=
  lit "I encountered an error while generating an answer: ".

(** [_generate_answer] (lines 98-128). *)
Definition generate_answer (p : RAGPipeline) (question context : pystr) : pystr :=
  match generate_response (gemini_client p) (build_prompt question context) with
  | Ok ans => if is_empty ans || is_empty (strip ans) then no_answer_apology else ans
  | Raise e => generation_error_prefix ++ e
  end.

(** Line 136. *)
Definition format_source (doc : DocDict) : DocDict :=
  {| content := if 500 <? len (content doc)
                then slice (content doc) 0 500 ++ lit "..."
                else content doc;
     score := score doc;
     metadata := metadata doc |}.

(** [_format_sources] (lines 130-142). *)
Definition format_sources (docs : list DocDict) : list DocDict :=
  map format_source docs.

Definition no_information_answer : pystr :=
  lit "I couldn't find any relevant information in the uploaded documents to answer your question.".

Definition pipeline_error_prefix : pystr :=
  lit "An error occurred while processing your question: ".

(** The body of the [try] of [query] (lines 21-44). *)
Definition query_body (p : RAGPipeline) (question : pystr) (num_sources : Z)
  : exc QueryResponse :=
  let relevant_docs := retrieve_documents p question num_sources in
  match relevant_docs with
  | [] => Ok {| answer := no_information_answer; sources := [] |}
  | _ =>
      let context := prepare_context p relevant_docs in
      let ans := generate_answer p question context in
      let srcs := format_sources relevant_docs in
      Ok {| answer := ans; sources := srcs |}
  end.

(** [query] (lines 18-51). *)
Definition query (p : RAGPipeline) (question : pystr) (num_sources : Z)
  : exc QueryResponse :=
  try_except (query_body p question num_sources)
    (fun e => Ok {| answer := pipeline_error_prefix ++ e; sources := [] |}).

(** [update_vector_store] (lines 144-147), as a state transformer. *)
Definition update_vector_store (p : RAGPipeline) (new_vector_store : VS)
  : RAGPipeline :=
  {| vector_store := new_vector_store; gemini_client := gemini_client p;
     max_context_length := max_context_length p |}.

(** Every hit's block as [_prepare_context] formats it, with no budget. *)
Fixpoint labelled_blocks (i : Z) (docs : list DocDict) : list pystr :=
  match docs with
  | [] => []
  | doc :: docs' => doc_text i doc :: labelled_blocks (i + 1) docs'
  end.

End Pipeline.

Arguments GeminiClient C : clear implicits.
Arguments RAGPipeline VS C : clear implicits.

End Pipeline.

(** ** [DocumentProcessor]: extraction and [process_file] *)
Module Processor.
Import Pipeline.

(** A Streamlit upload: its [name] and the bytes [read()] gives. *)
Record UploadedFile := {
  file_name : pystr;
  file_bytes : list Byte.byte
}.

(** PyPDF2: [PdfReader(BytesIO(data)).pages] (which may raise), and for each
    page what [page.extract_text()] gives or raises. *)
Class PdfLibrary := {
  pdf_pages : list Byte.byte -> exc (list (exc pystr))
}.

(** python-docx: [Document(BytesIO(data))] (which may raise), its paragraph
    texts, and its tables as rows of cell texts. *)
Class DocxLibrary := {
  docx_contents : list Byte.byte -> exc (list pystr * list (list (list pystr)))
}.

(** [bytes.decode(encoding)]; [Raise] is a [UnicodeDecodeError]. *)
Inductive encoding := utf_8 | latin_1 | cp1252.

Class Codecs := {
  decode_utf8 : list Byte.byte -> exc pystr;
  decode_cp1252 : list Byte.byte -> exc pystr
}.

(** [str.split(sep)] for a one-character separator. *)
Fixpoint split_on (sep : ascii) (s : pystr) : list pystr :=
  match s with
  | [] => [[]]
  | c :: s' =>
      if (c =? sep)%char then [] :: split_on sep s'
      else match split_on sep s' with
           | [] => [[c]]
           | w :: ws => (c :: w) :: ws
           end
  end.

(** [str.lower()] on ASCII letters. *)
Definition lower_char (c : ascii) : ascii :=
  let n := nat_of_ascii c in
  if ((65 <=? n) && (n <=? 90))%nat then ascii_of_nat (n + 32) else c.

Definition lower (s : pystr) : pystr := map lower_char s.

Definition pystr_eqb (a b : pystr) : bool :=
  if list_eq_dec ascii_dec a b then true else false.

Section Extraction.
Context `{PdfLibrary} `{DocxLibrary} `{Codecs}.

(** Lines 63-70: the text of the pages, numbered from 1; a page whose
    extraction raises or gives no text is skipped. *)
Fixpoint pages_text (page_num : Z) (pages : list (exc pystr)) : pystr :=
  match pages with
  | [] => []
  | page :: pages' =>
      match page with
      | Ok ((_ :: _) as page_text) =>
          nl ++ lit "--- Page " ++ str_int (page_num + 1) ++ lit " ---" ++ nl ++
          page_text ++ nl
      | _ => []
      end ++ pages_text (page_num + 1) pages'
  end.

(** [_extract_from_pdf] (lines 57-75). *)
Definition extract_from_pdf (f : UploadedFile) : exc pystr :=
  match pdf_pages (file_bytes f) with
  | Ok pages => Ok (pages_text 0 pages)
  | Raise e => Raise (lit "Error reading PDF: " ++ e)
  end.

(** Lines 83-85. *)
Definition paragraphs_text (paragraphs : list pystr) : pystr :=
  concat (map (fun p => if is_empty (strip p) then [] else p ++ nl) paragraphs).

(** Lines 88-93. *)
Definition tables_text (tables : list (list (list pystr))) : pystr :=
  concat (map (fun table =>
    concat (map (fun row =>
      concat (map (fun cell =>
        if is_empty (strip cell) then [] else cell ++ lit " ") row) ++ nl) table))
    tables).

(** [_extract_from_docx] (lines 77-98). *)
Definition extract_from_docx (f : UploadedFile) : exc pystr :=
  match docx_contents (file_bytes f) with
  | Ok (paragraphs, tables) => Ok (paragraphs_text paragraphs ++ tables_text tables)
  | Raise e => Raise (lit "Error reading DOCX: " ++ e)
  end.

(** [data.decode(encoding)]: Latin-1 maps every byte to the character with
    that code. *)
Definition decode (enc : encoding) (data : list Byte.byte) : exc pystr :=
  match enc with
  | utf_8 => decode_utf8 data
  | latin_1 => Ok (map ascii_of_byte data)
  | cp1252 => decode_cp1252 data
  end.

(** Lines 106-114: the first encoding that decodes the data. *)
Fixpoint decode_first (encodings : list encoding) (data : list Byte.byte) : exc pystr :=
  match encodings with
  | [] => Raise (lit "Could not decode text file with any supported encoding")
  | enc :: encs =>
      match decode enc data with
      | Ok text => Ok text
      | Raise _ => decode_first encs data
      end
  end.

(** [_extract_from_txt] (lines 100-117). *)
Definition extract_from_txt (f : UploadedFile) : exc pystr :=
  match decode_first [utf_8; latin_1; cp1252] (file_bytes f) with
  | Ok text => Ok text
  | Raise e => Raise (lit "Error reading TXT: " ++ e)
  end.

(** [DocumentProcessor(chunk_size, chunk_overlap)] *)
Record DocumentProcessor := {
  chunk_size : Z;
  chunk_overlap : Z
}.

Definition default_processor : DocumentProcessor :=
  {| chunk_size := 1000; chunk_overlap := 200 |}.

(** A chunk dict [{"content", "metadata": {"source", "chunk_id",
    "file_type"}}], each metadata value as [str] shows it. *)
Record ChunkDict := {
  chunk_content : pystr;
  chunk_metadata : metadata_dict
}.

(** Line 20. *)
Definition file_extension (f : UploadedFile) : pystr :=
  lower (last (split_on "." (file_name f)) []).

(** Lines 39-48. *)
Fixpoint with_metadata (f : UploadedFile) (ext : pystr) (i : Z) (chunks : list pystr)
  : list ChunkDict :=
  match chunks with
  | [] => []
  | chunk :: chunks' =>
      {| chunk_content := chunk;
         chunk_metadata := [(lit "source", file_name f); (lit "chunk_id", str_int i);
                            (lit "file_type", ext)] |}
      :: with_metadata f ext (i + 1) chunks'
  end.

(** [process_file] (lines 17-55); [None] when the chunker has not finished
    within [fuel] iterations. *)
Definition process_file (dp : DocumentProcessor) (fuel : nat) (f : UploadedFile)
  : option (list ChunkDict) :=
  let ext := file_extension f in
  let text :=
    if pystr_eqb ext (lit "pdf") then extract_from_pdf f
    else if pystr_eqb ext (lit "docx") then extract_from_docx f
    else if pystr_eqb ext (lit "txt") then extract_from_txt f
    else Raise (lit "Unsupported file type: " ++ ext) in
  match text with
  | Raise _ => Some []
  | Ok text =>
      if is_empty (strip text) then Some []
      else option_map (with_metadata f ext 0)
             (Chunker.split_text_into_chunks (chunk_size dp) (chunk_overlap dp) text fuel)
  end.

End Extraction.

End Processor.

(** ** The rest of [GeminiClient] and the [VectorStoreManager] *)
Module GeminiRest.
Import Pipeline Processor.

(** A chat message dict, each value as [str] shows it; a missing key raises
    [KeyError], whose [str] is the quoted key. *)
Definition message := metadata_dict.

(** [d[k]] *)
Fixpoint dict_index (d : metadata_dict) (k : pystr) : exc pystr :=
  match d with
  | [] => Raise (lit "'" ++ k ++ lit "'")
  | (k', v) :: d' => if list_eq_dec ascii_dec k k' then Ok v else dict_index d' k
  end.

(** [l[-n:]] *)
Definition last_n {A} (n : nat) (l : list A) : list A := skipn (length l - n) l.

Definition placeholder_key : pystr := lit "your_gemini_api_key_here".

(** [needle in hay] *)
Fixpoint contains (needle hay : pystr) : bool :=
  match hay with
  | [] => is_empty needle
  | _ :: hay' =>
      (if list_eq_dec ascii_dec needle (firstn (length needle) hay) then true
       else false) || contains needle hay'
  end.

Section Client.
Context {C : Type} `{GenAIClient C}.

(** [GeminiClient.__init__] (lines 12-24): [env_key] is
    [os.getenv("GEMINI_API_KEY")], [genai_client] is [genai.Client(api_key=...)]. *)
Definition gemini_client_init (env_key : option pystr) (model_name : pystr)
  (genai_client : pystr -> exc C) : exc (GeminiClient C) :=
  let api_key := match env_key with Some k => k | None => placeholder_key end in
  if is_empty api_key || pystr_eqb api_key placeholder_key then
    Raise (lit "GEMINI_API_KEY environment variable is not set or is using placeholder value")
  else
    match genai_client api_key with
    | Ok c => Ok {| model_name := model_name; client := c |}
    | Raise e => Raise (lit "Failed to initialize Gemini client: " ++ e)
    end.

(** Lines 58-59: one line of the conversation context. *)
Definition history_line (msg : message) : exc pystr :=
  match dict_index msg (lit "role") with
  | Raise e => Raise e
  | Ok r =>
      let role := if pystr_eqb r (lit "user") then lit "Human" else lit "Assistant" in
      match dict_index msg (lit "content") with
      | Raise e => Raise e
      | Ok c => Ok (role ++ lit ": " ++ c ++ nl)
      end
  end.

(** Lines 56-59. *)
Fixpoint history_context (msgs : list message) : exc pystr :=
  match msgs with
  | [] => Ok []
  | msg :: msgs' =>
      match history_line msg with
      | Raise e => Raise e
      | Ok line =>
          match history_context msgs' with
          | Raise e => Raise e
          | Ok rest => Ok (line ++ rest)
          end
      end
  end.

(** Lines 62-67. *)
Definition chat_prompt (conversation_context current_query : pystr) : pystr :=
  lit "Previous conversation:" ++ nl ++ conversation_context ++ nl ++ nl ++
  lit "Current question: " ++ current_query ++ nl ++ nl ++
  lit "Please provide a helpful response that takes into account the conversation history.".

(** [generate_chat_response] (lines 52-73). *)
Definition generate_chat_response (g : GeminiClient C) (conversation_history : list message)
  (current_query : pystr) : exc pystr :=
  try_except
    (match history_context (last_n 5 conversation_history) with
     | Raise e => Raise e
     | Ok ctx => generate_response g (chat_prompt ctx current_query)
     end)
    (fun _ => generate_response g current_query).

Definition connection_test_prompt : pystr :=
  lit "Hello, this is a test. Please respond with 'Connection successful.'".

(** [test_connection] (lines 75-82). *)
Definition test_connection (g : GeminiClient C) : bool :=
  match generate_response g connection_test_prompt with
  | Ok test_response => contains (lit "successful") (lower test_response)
  | Raise _ => false
  end.

End Client.

Section Manager.
Context {VS : Type} `{VectorStore VS}.

(** [FAISS.from_documents(documents, embedding)], which may raise. *)
Class FaissBuilder := {
  from_documents : list Document -> exc VS
}.

(** [VectorStoreManager.create_vector_store] (src/vector_store.py, lines 35-51). *)
Definition create_vector_store `{FaissBuilder} (chunks : list Processor.ChunkDict)
  : exc VS :=
  let documents := map (fun c => {| page_content := Processor.chunk_content c;
                                    doc_metadata := Processor.chunk_metadata c |})
                       chunks in
  match from_documents documents with
  | Ok vs => Ok vs
  | Raise e => Raise (lit "Failed to create vector store: " ++ e)
  end.

(** [VectorStoreManager.search_similar_documents] (lines 70-86). *)
Definition search_similar_documents (vs : VS) (query : pystr) (k : Z)
  : exc (list DocDict) :=
  match similarity_search_with_score vs query k with
  | Ok results => Ok (map hit_of results)
  | Raise e => Raise (lit "Failed to search documents: " ++ e)
  end.

End Manager.

End GeminiRest.

(** ** The Streamlit session of [src/app.py] *)
Module App.
Import Pipeline Processor GeminiRest.

(** A message of [st.session_state.messages]: [role], [content] and, for the
    answers of the pipeline, [sources]. *)
Record ChatMessage := {
  role : pystr;
  msg_content : pystr;
  msg_sources : option (list DocDict)
}.

Section Session.
Context {VS C : Type} `{VectorStore VS} `{GenAIClient C} `{FaissBuilder VS}
  `{PdfLibrary} `{DocxLibrary} `{Codecs}.

(** [os.getenv("GEMINI_API_KEY")] and [genai.Client(api_key=...)]. *)
Variable env_key : option pystr.
Variable genai_client : pystr -> exc C.

(** [st.session_state] *)
Record SessionState := {
  messages : list ChatMessage;
  session_vector_store : option VS;
  rag_pipeline : option (RAGPipeline VS C);
  documents_processed : bool
}.

(** Lines 25-33. *)
Definition initial_session : SessionState :=
  {| messages := []; session_vector_store := None; rag_pipeline := None;
     documents_processed := false |}.

(** [get_gemini_client] (lines 43-52). *)
Definition get_gemini_client : option (GeminiClient C) :=
  match env_key with
  | None => None
  | Some api_key =>
      if is_empty api_key || pystr_eqb api_key placeholder_key then None
      else match gemini_client_init env_key (lit "gemini-2.5-flash") genai_client with
           | Ok g => Some g
           | Raise _ => None
           end
  end.

(** Lines 65-71: the chunks of all the files, in upload order. *)
Fixpoint process_all (fuel : nat) (files : list UploadedFile) : option (list ChunkDict) :=
  match files with
  | [] => Some []
  | f :: files' =>
      match process_file default_processor fuel f with
      | None => None
      | Some chunks => option_map (app chunks) (process_all fuel files')
      end
  end.

(** [process_uploaded_files] (lines 56-88): the new session, or the
    exception that stops the script run (the session is then left as it
    was); [None] when a chunker run has not finished within [fuel]. *)
Definition process_uploaded_files (fuel : nat) (s : SessionState)
  (files : list UploadedFile) : option (exc SessionState) :=
  match get_gemini_client with
  | None => Some (Ok s)
  | Some g =>
      match process_all fuel files with
      | None => None
      | Some [] => Some (Ok s)
      | Some all_chunks =>
          match create_vector_store all_chunks with
          | Raise e => Some (Raise e)
          | Ok vs =>
              Some (Ok {| messages := messages s;
                          session_vector_store := Some vs;
                          rag_pipeline := Some {| vector_store := vs;
                                                  gemini_client := g;
                                                  max_context_length := 4000 |};
                          documents_processed := true |})
          end
      end
  end.

(** Lines 142-178: a question typed into the chat input. *)
Definition ask (s : SessionState) (prompt : pystr) : SessionState :=
  if is_empty prompt then s
  else if negb (documents_processed s) then s
  else match rag_pipeline s with
       | None => s
       | Some p =>
           let user_msg := {| role := lit "user"; msg_content := prompt;
                              msg_sources := None |} in
           let reply :=
             match query p prompt 4 with
             | Ok response =>
                 {| role := lit "assistant"; msg_content := answer response;
                    msg_sources := Some (sources response) |}
             | Raise e =>
                 {| role := lit "assistant";
                    msg_content := lit "Error generating response: " ++ e;
                    msg_sources := None |}
             end in
           {| messages := messages s ++ [user_msg; reply];
              session_vector_store := session_vector_store s;
              rag_pipeline := rag_pipeline s;
              documents_processed := documents_processed s |}
       end.

(** Lines 142-153 of a run that Streamlit stops (a Stop click or a new chat
    submission) once the user message is appended: [StopException] and
    [RerunException] derive from [BaseException], so [except Exception]
    does not catch them and no reply is appended. *)
Definition ask_interrupted (s : SessionState) (prompt : pystr) : SessionState :=
  if is_empty prompt then s
  else if negb (documents_processed s) then s
  else match rag_pipeline s with
       | None => s
       | Some _ =>
           {| messages := messages s ++ [{| role := lit "user"; msg_content := prompt;
                                             msg_sources := None |}];
              session_vector_store := session_vector_store s;
              rag_pipeline := rag_pipeline s;
              documents_processed := documents_processed s |}
       end.

(** Lines 192-200. *)
Definition clear_chat (s : SessionState) : SessionState :=
  {| messages := []; session_vector_store := session_vector_store s;
     rag_pipeline := rag_pipeline s; documents_processed := documents_processed s |}.

Definition reset_all (s : SessionState) : SessionState := initial_session.

Inductive UserAction :=
| ProcessDocuments (files : list UploadedFile)
| AskQuestion (prompt : pystr)
| AskQuestionStopped (prompt : pystr)
| ClearChatHistory
| ResetAll.

(** One script run of [main] triggered by a user action (lines 103-105,
    142, 192 and 195); the "Process Documents" button is only shown when
    files are uploaded. *)
Definition run_action (fuel : nat) (s : SessionState) (a : UserAction)
  : option (exc SessionState) :=
  match a with
  | ProcessDocuments [] => Some (Ok s)
  | ProcessDocuments files => process_uploaded_files fuel s files
  | AskQuestion prompt => Some (Ok (ask s prompt))
  | AskQuestionStopped prompt => Some (Ok (ask_interrupted s prompt))
  | ClearChatHistory => Some (Ok (clear_chat s))
  | ResetAll => Some (Ok (reset_all s))
  end.

(** The sessions a user can reach from a fresh one; a run that raises
    leaves the session as it was. *)
Inductive reachable : SessionState -> Prop :=
| reach_initial : reachable initial_session
| reach_step fuel s a s' :
    reachable s -> run_action fuel s a = Some (Ok s') -> reachable s'.

End Session.

Arguments SessionState VS C : clear implicits.

End App.

(** * Properties of the chunker *)
Module ChunkerFacts.
Import Chunker.

(** ** Python strings *)

Lemma lstrip_length (s : pystr) : (length (lstrip s) <= length s)%nat.
Proof.
  induction s as [|c s IH]; simpl; [lia|].
  destruct (is_space c); simpl; lia.
Qed.

Lemma strip_length (s : pystr) : (length (strip s) <= length s)%nat.
Proof.
  unfold strip. rewrite length_rev.
  pose proof (lstrip_length (rev (lstrip s))) as H1.
  rewrite length_rev in H1. pose proof (lstrip_length s). lia.
Qed.

Lemma firstn_add_skipn {A} (n m : nat) (l : list A) :
  firstn (n + m) l = firstn n l ++ firstn m (skipn n l).
Proof.
  revert l; induction n as [|n IH]; intros [|x l]; simpl;
    try rewrite firstn_nil; try reflexivity.
  now rewrite IH.
Qed.

Lemma norm_index_nonneg (n i : Z) :
  0 <= i -> norm_index n i = Z.min i n.
Proof. intros Hi. unfold norm_index. destruct (Z.ltb_spec i 0); lia. Qed.

(** Adjacent slices concatenate. *)
Lemma slice_app (t : pystr) (a b c : Z) :
  0 <= a <= b -> 0 <= c -> Z.min b (len t) <= Z.min c (len t) ->
  slice t a b ++ slice t b c = slice t a c.
Proof.
  intros Hab Hc Hbc. unfold slice.
  rewrite !norm_index_nonneg by lia.
  set (L := len t).
  assert (HL : 0 <= L) by (unfold L, len; lia).
  replace (Z.to_nat (Z.min b L)) with
    (Z.to_nat (Z.min b L - Z.min a L) + Z.to_nat (Z.min a L))%nat by lia.
  rewrite <- skipn_skipn.
  replace (Z.to_nat (Z.min c L - Z.min a L)) with
    (Z.to_nat (Z.min b L - Z.min a L) + Z.to_nat (Z.min c L - Z.min b L))%nat by lia.
  now rewrite firstn_add_skipn.
Qed.

Lemma slice_all (t : pystr) : slice t 0 (len t) = t.
Proof.
  unfold slice. rewrite !norm_index_nonneg by (unfold len; lia).
  replace (Z.to_nat (Z.min (len t) (len t) - Z.min 0 (len t))) with (length t)
    by (unfold len; lia).
  replace (Z.to_nat (Z.min 0 (len t))) with 0%nat by (unfold len; lia).
  apply firstn_all2. lia.
Qed.

Lemma slice_length (t : pystr) (i j : Z) :
  0 <= i -> i <= j -> Z.of_nat (length (slice t i j)) <= j - i.
Proof.
  intros Hi Hij. unfold slice. rewrite !norm_index_nonneg by lia.
  rewrite length_firstn. lia.
Qed.

Lemma slice_empty (t : pystr) (i j : Z) :
  0 <= i -> len t <= i -> slice t i j = [].
Proof.
  intros Hi HL. unfold slice. rewrite (norm_index_nonneg _ i Hi).
  unfold norm_index. destruct (Z.ltb_spec j 0).
  - replace (Z.to_nat (Z.max 0 (j + len t) - Z.min i (len t))) with 0%nat
      by (unfold len in *; lia). reflexivity.
  - replace (Z.to_nat (Z.min j (len t) - Z.min i (len t))) with 0%nat by lia.
    reflexivity.
Qed.

Lemma rfind_from_range (c : ascii) (s : pystr) (a : Z) (k : nat) :
  rfind_from c s a k = -1 \/ a <= rfind_from c s a k < a + Z.of_nat k.
Proof.
  induction k as [|k IH]; simpl; [now left|].
  destruct (_ =? c)%char; [right; lia|].
  destruct IH as [IH|IH]; [now left | right; lia].
Qed.

(** A search inside the window [[start, end_)] of a text longer than [end_]. *)
Lemma rfind_window (t : pystr) (c : ascii) (start end_ : Z) :
  0 <= start -> start <= end_ -> end_ < len t ->
  rfind t c start end_ = -1 \/ start <= rfind t c start end_ < end_.
Proof.
  intros H0 H1 H2. unfold rfind.
  rewrite !norm_index_nonneg by lia.
  rewrite !Z.min_l by lia.
  destruct (rfind_from_range c t start (Z.to_nat (end_ - start))); lia.
Qed.

(** ** The window end *)

(** The cut point of a window lies after its start and at most [chunk_size]
    characters further. *)
Lemma cut_end_range (cs : Z) (t : pystr) (start : Z) :
  0 <= start -> 0 < cs -> start < cut_end cs t start <= start + cs.
Proof.
  intros H0 Hcs. unfold cut_end.
  destruct (Z.ltb_spec (start + cs) (len t)) as [Hlt|]; [|lia].
  destruct (rfind_window t "." start (start + cs)) as [Hp|Hp]; try lia;
  destruct (rfind_window t "!" start (start + cs)) as [He|He]; try lia;
  destruct (rfind_window t "?" start (start + cs)) as [Hq|Hq]; try lia;
  destruct (rfind_window t " " start (start + cs)) as [Hs|Hs]; try lia;
  repeat match goal with
  | |- context [if ?b then _ else _] => destruct b eqn:?
  end;
  repeat match goal with
  | H : (_ <? _) = _ |- _ => first [apply Z.ltb_lt in H | apply Z.ltb_ge in H]
  end; lia.
Qed.

End ChunkerFacts.

(** Test inputs of the chunker. *)
Module ChunkerInputs.

(** A run of 1000 letters, one space, then 1000 more letters. *)
Definition two_long_words : pystr :=
  repeat "a"%char 1000 ++ [" "%char] ++ repeat "b"%char 1000.

(** 250 characters with no sentence terminator and no space. *)
Definition a250 : pystr := repeat "a"%char 250.

Definition spaced : pystr := lit "aaaa bbbbbbbbb cc".

Definition hello_sentence : pystr :=
  lit "Hello world. This is a test sentence that continues on.".

End ChunkerInputs.

Module ChunkerClaims.
Import Chunker ChunkerFacts ChunkerInputs.

Lemma push_chunk_bound (cs : Z) (t : pystr) (acc : list pystr) (start e : Z) :
  0 <= start -> start <= e <= start + cs ->
  Forall (fun c => len c <= cs) acc ->
  Forall (fun c => len c <= cs) (push_chunk t acc start e).
Proof.
  intros H0 He Hacc. unfold push_chunk.
  destruct (strip (slice t start e)) as [|x xs] eqn:Hs; [exact Hacc|].
  apply Forall_app; split; [exact Hacc|].
  constructor; [|constructor].
  rewrite <- Hs. unfold len.
  pose proof (strip_length (slice t start e)).
  pose proof (slice_length t start e H0 (proj1 He)). lia.
Qed.

Lemma split_loop_bound (cs ov : Z) (t : pystr) :
  0 < cs ->
  forall fuel start acc res,
  0 <= start -> Forall (fun c => len c <= cs) acc ->
  split_loop cs ov t fuel start acc = Some res ->
  Forall (fun c => len c <= cs) res.
Proof.
  intros Hcs fuel. induction fuel as [|fuel IH]; intros start acc res H0 Hacc Hrun;
    simpl in Hrun; [discriminate|].
  destruct (start <? len t); [|congruence].
  pose proof (cut_end_range cs t start H0 Hcs) as Hcut.
  assert (Hpush := push_chunk_bound cs t acc start (cut_end cs t start) H0
                     ltac:(lia) Hacc).
  destruct (Z.leb_spec (cut_end cs t start - ov) 0).
  - congruence.
  - eapply IH; [|exact Hpush|exact Hrun]. lia.
Qed.

Lemma push_chunk_app (t : pystr) (acc : list pystr) (start e : Z) :
  push_chunk t acc start e = acc ++ push_chunk t [] start e.
Proof.
  unfold push_chunk. destruct (strip (slice t start e)); simpl;
    [now rewrite app_nil_r | reflexivity].
Qed.

(** A run of the loop is determined by its windows: the chunks are the
    stripped window slices, blank ones dropped. *)
Lemma split_loop_windows (cs ov : Z) (t : pystr) :
  forall fuel start acc ws,
  loop_windows cs ov t fuel start = Some ws ->
  split_loop cs ov t fuel start acc =
    Some (acc ++ concat (map (fun s => push_chunk t [] s (cut_end cs t s)) ws)).
Proof.
  intros fuel. induction fuel as [|fuel IH]; intros start acc ws Hw;
    simpl in *; [discriminate|].
  destruct (start <? len t).
  - destruct (cut_end cs t start - ov <=? 0).
    + injection Hw as <-. simpl. rewrite app_nil_r. f_equal. apply push_chunk_app.
    + destruct (loop_windows cs ov t fuel (cut_end cs t start - ov)) as [ws'|] eqn:E;
        simpl in Hw; [|discriminate].
      injection Hw as <-. rewrite (IH _ _ ws' E). simpl.
      rewrite push_chunk_app, app_assoc. reflexivity.
  - injection Hw as <-. simpl. now rewrite app_nil_r.
Qed.

(** The windows, with the overlap cut off each one, tile the text from
    [start] on, for a run whose every window starts after the previous one. *)
Lemma windows_tile_from (cs ov : Z) (t : pystr) :
  forall fuel start ws,
  0 <= start ->
  loop_windows cs ov t fuel start = Some ws ->
  Forall (fun s => s < cut_end cs t s - ov) ws ->
  concat (map (fun s => slice t s (cut_end cs t s - ov)) ws) = slice t start (len t).
Proof.
  intros fuel. induction fuel as [|fuel IH]; intros start ws H0 Hw Hadv;
    simpl in Hw; [discriminate|].
  destruct (Z.ltb_spec start (len t)) as [Hin|Hout].
  - destruct (Z.leb_spec (cut_end cs t start - ov) 0).
    + injection Hw as <-. inversion Hadv; subst. lia.
    + destruct (loop_windows cs ov t fuel (cut_end cs t start - ov)) as [ws'|] eqn:E;
        simpl in Hw; [|discriminate].
      injection Hw as <-. inversion Hadv as [|? ? Hs Hrest]; subst.
      simpl. rewrite (IH (cut_end cs t start - ov) ws' ltac:(lia) E Hrest).
      apply slice_app; unfold len in *; lia.
  - injection Hw as <-. simpl. symmetry. apply slice_empty; lia.
Qed.

(** C3: a text no longer than [chunk_size] comes back whole, as one chunk,
    without the stripping and the dropping of blank chunks the loop applies:
    [" hello "] is returned as [" hello "], not ["hello"], and a blank text
    comes back as one blank chunk, not as an empty list. *)
Lemma short_text_not_stripped :
  split_text_into_chunks 1000 200 (lit " hello ") 0 = Some [lit " hello "] /\
  strip (lit " hello ") = lit "hello" /\
  split_text_into_chunks 1000 200 (lit "   ") 0 = Some [lit "   "].
Proof. vm_compute. repeat split. Qed.

Lemma two_long_words_stuck (fuel : nat) (acc : list pystr) :
  split_loop 1000 200 two_long_words fuel 800 acc = None.
Proof.
  revert acc; induction fuel as [|fuel IH]; intros acc; [reflexivity|].
  cbn [split_loop].
  replace (800 <? len two_long_words) with true by (vm_compute; reflexivity).
  replace (cut_end 1000 two_long_words 800) with 1000 by (vm_compute; reflexivity).
  apply IH.
Qed.

(** C4: with the default configuration (chunk_size 1000, chunk_overlap 200)
    the loop never leaves on 1000 letters, a space and 1000 letters: the
    window at 800 is cut at the space (position 1000) and the next window
    starts at 1000 - 200 = 800 again, so no number of iterations ends it. *)
Theorem split_two_long_words_diverges (fuel : nat) :
  split_text_into_chunks 1000 200 two_long_words fuel = None.
Proof.
  unfold split_text_into_chunks.
  replace (len two_long_words <=? 1000) with false by (vm_compute; reflexivity).
  destruct fuel as [|fuel]; [reflexivity|].
  cbn [split_loop].
  replace (0 <? len two_long_words) with true by (vm_compute; reflexivity).
  replace (cut_end 1000 two_long_words 0) with 1000 by (vm_compute; reflexivity).
  apply two_long_words_stuck.
Qed.

(** C5, as stated, fails: with chunk_overlap 0 there is no overlap region,
    yet the chunks of ["aaaa bbbbbbbbb cc"] concatenate to
    ["aaaabbbbbbbbbcc"]: the spaces at the cuts are stripped away. *)
Lemma chunks_lose_cut_whitespace :
  split_text_into_chunks 10 0 spaced 10 =
    Some [lit "aaaa"; lit "bbbbbbbbb"; lit "cc"] /\
  concat [lit "aaaa"; lit "bbbbbbbbb"; lit "cc"] <> spaced.
Proof. split; [vm_compute; reflexivity | vm_compute; discriminate]. Qed.

(** C5, amended: for a text longer than [chunk_size], in a run of the loop
    whose every window starts after the previous one, the windows with their
    overlap regions removed ([text[s:end - overlap]]) tile the text exactly,
    and the chunks are the stripped window slices [text[s:end]], blank ones
    dropped. *)
Theorem windows_tile_text (cs ov : Z) (t : pystr) (fuel : nat) (ws : list Z) :
  cs < len t ->
  loop_windows cs ov t fuel 0 = Some ws ->
  Forall (fun s => s < cut_end cs t s - ov) ws ->
  concat (map (fun s => slice t s (cut_end cs t s - ov)) ws) = t /\
  split_text_into_chunks cs ov t fuel =
    Some (concat (map (fun s => push_chunk t [] s (cut_end cs t s)) ws)).
Proof.
  intros Hlong Hw Hadv. split.
  - rewrite (windows_tile_from cs ov t fuel 0 ws ltac:(lia) Hw Hadv).
    apply slice_all.
  - unfold split_text_into_chunks.
    destruct (Z.leb_spec (len t) cs); [lia|].
    exact (split_loop_windows cs ov t fuel 0 [] ws Hw).
Qed.

Lemma windows_tile_text_witness :
  concat (map (fun s => slice a250 s (cut_end 100 a250 s - 20)) [0; 80; 160; 240])
    = a250 /\
  split_text_into_chunks 100 20 a250 10 =
    Some (concat (map (fun s => push_chunk a250 [] s (cut_end 100 a250 s))
                      [0; 80; 160; 240])).
Proof.
  apply (windows_tile_text 100 20 a250 10 [0; 80; 160; 240]).
  - vm_compute. reflexivity.
  - vm_compute. reflexivity.
  - repeat apply Forall_cons; try apply Forall_nil; vm_compute; reflexivity.
Defined.

(** C9: when the chunker returns, every chunk is at most [chunk_size]
    characters long. *)
Theorem chunk_size_bound (cs ov : Z) (t : pystr) (fuel : nat) (chunks : list pystr) :
  0 < cs ->
  split_text_into_chunks cs ov t fuel = Some chunks ->
  Forall (fun c => len c <= cs) chunks.
Proof.
  intros Hcs. unfold split_text_into_chunks.
  destruct (Z.leb_spec (len t) cs) as [Hshort|Hlong].
  - intros H. injection H as <-. now repeat constructor.
  - apply (split_loop_bound cs ov t Hcs fuel 0 []); [lia | constructor].
Qed.

Lemma chunk_size_bound_witness :
  Forall (fun c => len c <= 20)
    [lit "Hello world."; lit "This is a test"; lit "sentence that";
     lit "continues on."].
Proof.
  apply (chunk_size_bound 20 0 hello_sentence 10); [lia | vm_compute; reflexivity].
Defined.

End ChunkerClaims.

(** Test doubles for the FAISS store and the [genai] client. *)
Module PipelineInputs.
Import Pipeline.

(** A store that returns its first [k] results, or one whose search raises. *)
Inductive FakeStore :=
| Stores (results : list (Document * Q))
| Broken (msg : pystr).

#[export] Instance fake_store : VectorStore FakeStore := {
  similarity_search_with_score st _ k :=
    match st with
    | Stores results => Ok (firstn (Z.to_nat k) results)
    | Broken msg => Raise msg
    end
}.

(** A model that always gives the same response text, or always raises. *)
Inductive FakeModel :=
| Replies (text : option pystr)
| Fails (msg : pystr).

#[export] Instance fake_model : GenAIClient FakeModel := {
  generate_content m _ _ :=
    match m with
    | Replies text => Ok text
    | Fails msg => Raise msg
    end
}.

Definition doc_x : Document :=
  {| page_content := lit "x"; doc_metadata := [(lit "source", lit "a")] |}.

Definition hit_x : DocDict := hit_of (doc_x, 1%Q).

Definition fake_pipeline (budget : Z) (m : FakeModel)
  : RAGPipeline FakeStore FakeModel :=
  {| vector_store := Stores [(doc_x, 1%Q); (doc_x, 1%Q)];
     gemini_client := {| model_name := lit "gemini-2.5-flash"; client := m |};
     max_context_length := budget |}.

End PipelineInputs.

Module PipelineClaims.
Import Pipeline PipelineInputs ChunkerFacts.

Lemma insert_by_score_perm (x : DocDict) (l : list DocDict) :
  Permutation (insert_by_score x l) (x :: l).
Proof.
  induction l as [|y l IH]; simpl; [reflexivity|].
  destruct (Qle_bool (score x) (score y)); [|reflexivity].
  rewrite IH. apply perm_swap.
Qed.

Lemma sort_by_score_desc_perm (l : list DocDict) :
  Permutation (sort_by_score_desc l) l.
Proof.
  unfold sort_by_score_desc.
  assert (Hgen : forall l acc,
    Permutation (fold_left (fun acc x => insert_by_score x acc) l acc) (l ++ acc)).
  { induction l0 as [|x l0 IH]; intros acc; simpl; [reflexivity|].
    rewrite IH, insert_by_score_perm. symmetry. apply Permutation_middle. }
  rewrite Hgen. now rewrite app_nil_r.
Qed.

(** What [_prepare_context] keeps is a prefix of the labelled blocks. *)
Lemma context_parts_prefix (max_len i cur : Z) (docs : list DocDict) :
  exists n, (n <= length docs)%nat /\
    context_parts max_len i cur docs = firstn n (labelled_blocks i docs).
Proof.
  revert i cur; induction docs as [|d docs IH]; intros i cur; simpl.
  - exists 0%nat. split; reflexivity.
  - destruct (max_len <? cur + len (doc_text i d)).
    + exists 0%nat. split; [lia | reflexivity].
    + destruct (IH (i + 1) (cur + len (doc_text i d))) as [n [Hn Hp]].
      exists (S n). split; [lia|]. simpl. now rewrite Hp.
Qed.

Lemma generate_answer_nonempty {VS C} `{VectorStore VS} `{GenAIClient C}
  (p : RAGPipeline VS C) (question context : pystr) :
  generate_answer p question context <> [].
Proof.
  unfold generate_answer.
  destruct (generate_response (gemini_client p) (build_prompt question context))
    as [ans|e].
  - destruct ans as [|a ans]; simpl.
    + unfold no_answer_apology. discriminate.
    + destruct (is_empty (strip (a :: ans))); [unfold no_answer_apology|]; discriminate.
  - unfold generation_error_prefix. simpl. discriminate.
Qed.

Lemma slice_prefix (s : pystr) (n : Z) :
  0 <= n -> slice s 0 n = firstn (Z.to_nat n) s.
Proof.
  intros Hn. unfold slice. rewrite !norm_index_nonneg by lia.
  replace (Z.min 0 (len s)) with 0 by (unfold len; lia). simpl.
  rewrite Z.sub_0_r. destruct (Z.le_ge_cases n (len s)).
  - now rewrite Z.min_l.
  - rewrite Z.min_r by lia. rewrite !firstn_all2; try reflexivity; unfold len in *; lia.
Qed.

(** C1: the budget check counts the blocks but not the ["\n"] that [join]
    puts between them. Two hits whose blocks take 17 characters each fit a
    budget of 34, and the context built from them has 35 characters. *)
Lemma context_overruns_budget :
  context_parts 34 0 0 [hit_x; hit_x] =
    [lit "[Source 1 - a]" ++ nl ++ lit "x" ++ nl;
     lit "[Source 2 - a]" ++ nl ++ lit "x" ++ nl] /\
  len (prepare_context (fake_pipeline 34 (Replies None)) [hit_x; hit_x]) = 35.
Proof. split; vm_compute; reflexivity. Qed.

(** C2, as stated, fails: with a budget of 20 only the first of two hits fits
    the context, yet both come back as sources. *)
Lemma sources_not_trimmed :
  match query (fake_pipeline 20 (Replies (Some (lit "ok")))) (lit "q") 4 with
  | Ok r =>
      length (sources r) = 2%nat /\
      length (context_parts 20 0 0
        (retrieve_documents (fake_pipeline 20 (Replies (Some (lit "ok")))) (lit "q") 4))
        = 1%nat
  | Raise _ => False
  end.
Proof. vm_compute. split; reflexivity. Qed.

(** C2, amended: when retrieval gives hits, the sources are every retrieved
    hit, formatted, in the order used to build the context, not trimmed to
    the blocks used; the context is built from the first [n] of those hits,
    the block of hit [i] labelled [Source i+1]. *)
Theorem sources_follow_context_order {VS C} `{VectorStore VS} `{GenAIClient C}
  (p : RAGPipeline VS C) (question : pystr) (num_sources : Z)
  (docs : list DocDict) :
  retrieve_documents p question num_sources = docs ->
  docs <> [] ->
  query p question num_sources =
    Ok {| answer := generate_answer p question (prepare_context p docs);
          sources := map format_source docs |} /\
  exists n, (n <= length docs)%nat /\
    context_parts (max_context_length p) 0 0 docs = firstn n (labelled_blocks 0 docs).
Proof.
  intros Hdocs Hne. split.
  - unfold query, query_body. rewrite Hdocs.
    destruct docs as [|d docs']; [contradiction|]. reflexivity.
  - apply context_parts_prefix.
Qed.

Lemma sources_follow_context_order_witness :
  query (fake_pipeline 20 (Replies (Some (lit "ok")))) (lit "q") 4 =
    Ok {| answer := generate_answer (fake_pipeline 20 (Replies (Some (lit "ok"))))
                      (lit "q")
                      (prepare_context (fake_pipeline 20 (Replies (Some (lit "ok"))))
                         [hit_x; hit_x]);
          sources := map format_source [hit_x; hit_x] |} /\
  exists n, (n <= length [hit_x; hit_x])%nat /\
    context_parts 20 0 0 [hit_x; hit_x] = firstn n (labelled_blocks 0 [hit_x; hit_x]).
Proof.
  apply (sources_follow_context_order
           (fake_pipeline 20 (Replies (Some (lit "ok")))) (lit "q") 4 [hit_x; hit_x]).
  - vm_compute. reflexivity.
  - discriminate.
Defined.

(** C6: [query] never raises: for every store, client, question and
    [num_sources] it returns a response, and its answer is a non-empty
    string. *)
Theorem query_total {VS C} `{VectorStore VS} `{GenAIClient C}
  (p : RAGPipeline VS C) (question : pystr) (num_sources : Z) :
  exists r, query p question num_sources = Ok r /\ answer r <> [].
Proof.
  unfold query, query_body.
  destruct (retrieve_documents p question num_sources) as [|d docs]; simpl.
  - eexists; split; [reflexivity|]. unfold no_information_answer. discriminate.
  - eexists; split; [reflexivity|]. apply generate_answer_nonempty.
Qed.

(** C8: a formatted source keeps the hit's score and metadata; its content
    is the hit's content when that has at most 500 characters, and otherwise
    its first 500 characters followed by ["..."], 503 characters in all. *)
Theorem format_source_content (d : DocDict) :
  score (format_source d) = score d /\
  metadata (format_source d) = metadata d /\
  ((len (content d) <= 500 /\ content (format_source d) = content d) \/
   (500 < len (content d) /\
    content (format_source d) = firstn 500 (content d) ++ lit "..." /\
    len (content (format_source d)) = 503)).
Proof.
  split; [reflexivity|]. split; [reflexivity|]. simpl.
  destruct (Z.ltb_spec 500 (len (content d))) as [Hgt|Hle].
  - right. rewrite slice_prefix by lia. split; [exact Hgt|]. split; [reflexivity|].
    unfold len in *. rewrite length_app, length_firstn. cbn [Datatypes.length]. lia.
  - left. split; [exact Hle | reflexivity].
Qed.

Example format_source_600 :
  len (content (format_source
    {| content := repeat "a"%char 600; metadata := []; score := 0%Q |})) = 503.
Proof. vm_compute. reflexivity. Qed.

(** C7: when retrieval returns hits and the one model call of this query
    raises, [query] still returns: the answer is the error prefix followed by the error detail, and
    the sources are all the retrieved hits (a permutation of the search
    results, sorted by score), each clipped to at most 503 characters. *)
Theorem generation_failure_keeps_sources {VS C} `{VectorStore VS} `{GenAIClient C}
  (p : RAGPipeline VS C) (question : pystr) (num_sources : Z)
  (results : list (Document * Q)) (e : pystr) :
  similarity_search_with_score (vector_store p) question num_sources = Ok results ->
  results <> [] ->
  generate_content (client (gemini_client p)) (model_name (gemini_client p))
    (build_prompt question
       (prepare_context p (retrieve_documents p question num_sources))) = Raise e ->
  Permutation (retrieve_documents p question num_sources) (map hit_of results) /\
  query p question num_sources =
    Ok {| answer := generation_error_prefix ++ lit "Failed to generate response: " ++ e;
          sources := map format_source (retrieve_documents p question num_sources) |} /\
  Forall (fun s => len (content s) <= 503)
    (map format_source (retrieve_documents p question num_sources)).
Proof.
  intros Hsearch Hne Hgen.
  assert (Hperm : Permutation (retrieve_documents p question num_sources)
                    (map hit_of results)).
  { unfold retrieve_documents. rewrite Hsearch. apply sort_by_score_desc_perm. }
  split; [exact Hperm|]. split.
  - unfold query, query_body.
    destruct (retrieve_documents p question num_sources) as [|d docs] eqn:Hdocs.
    + apply Permutation_nil in Hperm. destruct results; [contradiction | discriminate].
    + simpl. unfold generate_answer, generate_response.
      rewrite Hgen. reflexivity.
  - apply Forall_forall. intros s Hs. apply in_map_iff in Hs as [d [<- _]].
    destruct (format_source_content d) as [_ [_ [[Hle Hc] | [_ [_ Hl]]]]]; [rewrite Hc|]; lia.
Qed.

Lemma generation_failure_keeps_sources_witness :
  Permutation
    (retrieve_documents (fake_pipeline 4000 (Fails (lit "quota exceeded"))) (lit "q") 4)
    (map hit_of [(doc_x, 1%Q); (doc_x, 1%Q)]) /\
  query (fake_pipeline 4000 (Fails (lit "quota exceeded"))) (lit "q") 4 =
    Ok {| answer := generation_error_prefix ++ lit "Failed to generate response: " ++
                    lit "quota exceeded";
          sources := map format_source
            (retrieve_documents (fake_pipeline 4000 (Fails (lit "quota exceeded")))
               (lit "q") 4) |} /\
  Forall (fun s => len (content s) <= 503)
    (map format_source
       (retrieve_documents (fake_pipeline 4000 (Fails (lit "quota exceeded"))) (lit "q") 4)).
Proof.
  apply (generation_failure_keeps_sources
           (fake_pipeline 4000 (Fails (lit "quota exceeded"))) (lit "q") 4
           [(doc_x, 1%Q); (doc_x, 1%Q)] (lit "quota exceeded")).
  - reflexivity.
  - discriminate.
  - reflexivity.
Defined.

(** C10: [update_vector_store] replaces the vector store and leaves the
    Gemini client and the context budget as they were. *)
Theorem update_vector_store_frame {VS C} (p : RAGPipeline VS C) (v : VS) :
  vector_store (update_vector_store p v) = v /\
  gemini_client (update_vector_store p v) = gemini_client p /\
  max_context_length (update_vector_store p v) = max_context_length p.
Proof. repeat split. Qed.

End PipelineClaims.

(** * Further properties of the chunker *)
Module ChunkerExtras.
Import Chunker ChunkerFacts ChunkerClaims.

(** [100] line feeds, a space, then 1500 letters. *)
Definition newline_prefixed : pystr :=
  repeat (ascii_of_nat 10) 100 ++ [" "%char] ++ repeat "a"%char 1500.

(** The loop stops after its first window whenever that window is cut at or
    before [chunk_overlap]: the next start is not positive, and the rest of
    the text is never chunked. *)
Theorem first_cut_within_overlap_stops (cs ov : Z) (t : pystr) (fuel : nat) :
  0 <= cs -> cs < len t ->
  cut_end cs t 0 - ov <= 0 ->
  split_text_into_chunks cs ov t (S fuel) = Some (push_chunk t [] 0 (cut_end cs t 0)).
Proof.
  intros Hcs Hlong Hcut. unfold split_text_into_chunks.
  destruct (Z.leb_spec (len t) cs); [lia|].
  cbn [split_loop].
  destruct (Z.ltb_spec 0 (len t)); [|lia].
  destruct (Z.leb_spec (cut_end cs t 0 - ov) 0); [reflexivity | lia].
Qed.

Lemma first_cut_within_overlap_stops_witness :
  split_text_into_chunks 1000 200 newline_prefixed 1 =
    Some (push_chunk newline_prefixed [] 0 (cut_end 1000 newline_prefixed 0)).
Proof.
  apply first_cut_within_overlap_stops; [lia | vm_compute; reflexivity | vm_compute; discriminate].
Defined.

(** With the default configuration, [newline_prefixed] gives no chunk at all:
    its only window holds the line feeds. *)
Example newline_prefixed_no_chunks :
  split_text_into_chunks 1000 200 newline_prefixed 10 = Some [].
Proof. vm_compute. reflexivity. Qed.

Lemma split_loop_overlap0_finishes (cs : Z) (t : pystr) :
  0 < cs ->
  forall fuel start acc, 0 <= start -> (Z.to_nat (len t - start) < fuel)%nat ->
  exists chunks, split_loop cs 0 t fuel start acc = Some chunks.
Proof.
  intros Hcs fuel. induction fuel as [|fuel IH]; intros start acc H0 Hfuel; [lia|].
  cbn [split_loop].
  destruct (Z.ltb_spec start (len t)); [|eauto].
  pose proof (cut_end_range cs t start H0 Hcs).
  destruct (Z.leb_spec (cut_end cs t start - 0) 0); [eauto|].
  apply IH; lia.
Qed.

(** With [chunk_overlap = 0] the loop always finishes: every window ends
    after its start, so the next start moves forward. *)
Theorem overlap0_terminates (cs : Z) (t : pystr) (fuel : nat) :
  0 < cs -> (Z.to_nat (len t) < fuel)%nat ->
  exists chunks, split_text_into_chunks cs 0 t fuel = Some chunks.
Proof.
  intros Hcs Hfuel. unfold split_text_into_chunks.
  destruct (len t <=? cs); [eauto|].
  apply split_loop_overlap0_finishes; [exact Hcs | lia | rewrite Z.sub_0_r; exact Hfuel].
Qed.

Lemma overlap0_terminates_witness :
  exists chunks, split_text_into_chunks 10 0 ChunkerInputs.two_long_words 3000 = Some chunks.
Proof.
  apply overlap0_terminates; [lia | apply Nat.ltb_lt; vm_compute; reflexivity].
Defined.

(** ** Texts with no sentence terminator and no space *)

Definition no_boundary (t : pystr) : Prop :=
  forall c, In c t -> c <> "."%char /\ c <> "!"%char /\ c <> "?"%char /\ c <> " "%char.

Lemma rfind_from_absent (c : ascii) (t : pystr) (a : Z) (k : nat) :
  0 <= a -> a + Z.of_nat k <= len t -> ~ In c t -> rfind_from c t a k = -1.
Proof.
  intros Ha Hk Hc. induction k as [|k IH]; [reflexivity|]. simpl.
  destruct (Ascii.eqb_spec (nth (Z.to_nat (a + Z.of_nat k)) t " "%char) c) as [E|E].
  - exfalso. apply Hc. rewrite <- E. apply nth_In. unfold len in Hk. lia.
  - apply IH. lia.
Qed.

Lemma rfind_absent (t : pystr) (c : ascii) (i j : Z) :
  0 <= i -> ~ In c t -> rfind t c i j = -1.
Proof.
  intros Hi Hc. unfold rfind. rewrite (norm_index_nonneg _ i Hi).
  apply rfind_from_absent; [unfold len; lia | | exact Hc].
  unfold norm_index. destruct (Z.ltb_spec j 0); unfold len; lia.
Qed.

(** Without boundary characters every window is cut at its full size. *)
Lemma cut_end_hard (cs : Z) (t : pystr) (start : Z) :
  0 <= start -> no_boundary t -> cut_end cs t start = start + cs.
Proof.
  intros H0 Hnb.
  assert (Hn : forall c, c = "."%char \/ c = "!"%char \/ c = "?"%char \/ c = " "%char ->
                         ~ In c t).
  { intros c Hc Hin. destruct (Hnb c Hin) as [? [? [? ?]]]. intuition congruence. }
  unfold cut_end.
  rewrite !(rfind_absent t _ start (start + cs) H0) by (apply Hn; tauto).
  destruct (start + cs <? len t); [|reflexivity].
  destruct (Z.ltb_spec start (Z.max (Z.max (-1) (-1)) (-1))); [lia|].
  destruct (Z.ltb_spec start (-1)); [lia | reflexivity].
Qed.

Lemma hard_loop (cs ov : Z) (t : pystr) :
  0 <= ov < cs -> no_boundary t ->
  forall fuel m acc,
  (0 < m)%nat \/ m = 0%nat ->
  (Z.to_nat (len t - Z.of_nat m * (cs - ov)) < fuel)%nat ->
  exists n, (m <= n)%nat /\
    (forall k, (m <= k < n)%nat -> Z.of_nat k * (cs - ov) < len t) /\
    len t <= Z.of_nat n * (cs - ov) /\
    split_loop cs ov t fuel (Z.of_nat m * (cs - ov)) acc =
      Some (acc ++ concat (map (fun k => push_chunk t [] (Z.of_nat k * (cs - ov))
                                           (Z.of_nat k * (cs - ov) + cs))
                               (seq m (n - m)))).
Proof.
  intros Hov Hnb fuel. induction fuel as [|fuel IH]; intros m acc _ Hfuel; [lia|].
  cbn [split_loop].
  destruct (Z.ltb_spec (Z.of_nat m * (cs - ov)) (len t)) as [Hin|Hout].
  - rewrite cut_end_hard by (auto; nia).
    destruct (Z.leb_spec (Z.of_nat m * (cs - ov) + cs - ov) 0); [nia|].
    destruct (IH (S m) (push_chunk t acc (Z.of_nat m * (cs - ov))
                          (Z.of_nat m * (cs - ov) + cs))) as [n [Hmn [Hbelow [Habove Hrun]]]].
    + left; lia.
    + rewrite Nat2Z.inj_succ. nia.
    + exists n. split; [lia|]. split.
      * intros k Hk. destruct (Nat.eq_dec k m) as [->|]; [exact Hin|]. apply Hbelow. lia.
      * split; [exact Habove|].
        replace (Z.of_nat m * (cs - ov) + cs - ov) with (Z.of_nat (S m) * (cs - ov)) by lia.
        rewrite Hrun. replace (n - m)%nat with (S (n - S m)) by lia. simpl.
        rewrite push_chunk_app, app_assoc. reflexivity.
  - exists m. split; [lia|]. split; [lia|]. split; [lia|].
    rewrite Nat.sub_diag. simpl. now rewrite app_nil_r.
Qed.

(** On a text with no sentence terminator and no space, for
    [0 <= chunk_overlap < chunk_size], the loop finishes and cuts the windows
    [[k * step, k * step + chunk_size)] for every [k * step] below the length,
    with [step = chunk_size - chunk_overlap]. *)
Theorem hard_cut_windows (cs ov : Z) (t : pystr) (fuel : nat) :
  0 <= ov < cs -> cs < len t -> no_boundary t -> (Z.to_nat (len t) < fuel)%nat ->
  exists n,
    (forall k, (k < n)%nat -> Z.of_nat k * (cs - ov) < len t) /\
    len t <= Z.of_nat n * (cs - ov) /\
    split_text_into_chunks cs ov t fuel =
      Some (concat (map (fun k => push_chunk t [] (Z.of_nat k * (cs - ov))
                                    (Z.of_nat k * (cs - ov) + cs))
                        (seq 0 n))).
Proof.
  intros Hov Hlong Hnb Hfuel. unfold split_text_into_chunks.
  destruct (Z.leb_spec (len t) cs); [lia|].
  destruct (hard_loop cs ov t Hov Hnb fuel 0 [] ltac:(right; reflexivity)
              ltac:(simpl; lia)) as [n [_ [Hbelow [Habove Hrun]]]].
  exists n. split; [intros k Hk; apply Hbelow; lia|]. split; [exact Habove|].
  simpl in Hrun. rewrite Nat.sub_0_r in Hrun. exact Hrun.
Qed.

Lemma hard_cut_windows_witness :
  exists n,
    (forall k, (k < n)%nat -> Z.of_nat k * (100 - 20) < len ChunkerInputs.a250) /\
    len ChunkerInputs.a250 <= Z.of_nat n * (100 - 20) /\
    split_text_into_chunks 100 20 ChunkerInputs.a250 300 =
      Some (concat (map (fun k => push_chunk ChunkerInputs.a250 []
                                    (Z.of_nat k * (100 - 20))
                                    (Z.of_nat k * (100 - 20) + 100))
                        (seq 0 n))).
Proof.
  apply hard_cut_windows.
  - lia.
  - vm_compute. reflexivity.
  - intros c Hc. unfold ChunkerInputs.a250 in Hc. apply repeat_spec in Hc. subst.
    repeat split; discriminate.
  - apply Nat.ltb_lt. vm_compute. reflexivity.
Defined.

End ChunkerExtras.

(** * Further properties of the document processor *)
Module ProcessorInputs.
Import Pipeline Processor.

(** UTF-8 that accepts ASCII bytes only, and a CP1252 that maps bytes as
    Latin-1 does. *)
#[export] Instance ascii_codecs : Codecs := {
  decode_utf8 bs :=
    if forallb (fun b => Nat.ltb (Byte.to_nat b) 128) bs then Ok (map ascii_of_byte bs)
    else Raise (lit "invalid start byte");
  decode_cp1252 bs := Ok (map ascii_of_byte bs)
}.

(** A scanned PDF: one page with no text layer, one whose extraction raises. *)
#[export] Instance scanned_pdf : PdfLibrary := {
  pdf_pages _ := Ok [Ok []; Raise (lit "no text layer")]
}.

#[export] Instance broken_docx : DocxLibrary := {
  docx_contents _ := Raise (lit "File is not a zip file")
}.

Definition upload (name contents : string) : UploadedFile :=
  {| file_name := lit name; file_bytes := list_byte_of_string contents |}.

Definition small_processor : DocumentProcessor :=
  {| chunk_size := 6; chunk_overlap := 0 |}.

Definition notes_txt : UploadedFile := upload "notes.txt" "aaaa. bbbb.".

Definition notes_chunks : list ChunkDict :=
  Eval vm_compute in
    match process_file small_processor 10 notes_txt with Some l => l | None => [] end.

Definition notes_second_chunk : ChunkDict :=
  Eval vm_compute in nth 1 notes_chunks {| chunk_content := []; chunk_metadata := [] |}.

End ProcessorInputs.

Module StripFacts.

Definition spaces (s : pystr) : Prop := Forall (fun c => is_space c = true) s.

Lemma lstrip_nil_iff (s : pystr) : lstrip s = [] <-> spaces s.
Proof.
  unfold spaces. induction s as [|c s IH]; simpl; [split; auto|].
  destruct (is_space c) eqn:E; split; intros Hs.
  - constructor; [exact E | tauto].
  - inversion Hs; tauto.
  - discriminate.
  - inversion Hs; congruence.
Qed.

Lemma lstrip_head (s : pystr) :
  lstrip s = [] \/ exists c r, lstrip s = c :: r /\ is_space c = false.
Proof.
  induction s as [|c s IH]; simpl; [now left|].
  destruct (is_space c) eqn:E; [exact IH | right; eauto].
Qed.

Lemma spaces_rev (s : pystr) : spaces (rev s) -> spaces s.
Proof. intros H. rewrite <- (rev_involutive s). now apply Forall_rev. Qed.

Lemma rev_eq_nil {A} (l : list A) : rev l = [] -> l = [].
Proof. intros H. rewrite <- (rev_involutive l), H. reflexivity. Qed.

(** A string that is all spaces after stripping is empty. *)
Lemma spaces_strip (s : pystr) : spaces (strip s) -> strip s = [].
Proof.
  unfold strip. intros Hs. apply spaces_rev in Hs.
  destruct (lstrip_head (rev (lstrip s))) as [E|[c [r [E Hc]]]].
  - now rewrite E.
  - rewrite E in Hs. inversion Hs. congruence.
Qed.

Lemma strip_nil_iff (s : pystr) : strip s = [] <-> spaces s.
Proof.
  split; intros Hs.
  - unfold strip in Hs. apply rev_eq_nil in Hs. apply lstrip_nil_iff in Hs.
    apply spaces_rev in Hs.
    destruct (lstrip_head s) as [E|[c [r [E Hc]]]].
    + now apply lstrip_nil_iff.
    + rewrite E in Hs. inversion Hs. congruence.
  - unfold strip. apply lstrip_nil_iff in Hs. rewrite Hs. reflexivity.
Qed.

Lemma strip_strip_nil (s : pystr) : strip (strip s) = [] -> strip s = [].
Proof. intros H. apply spaces_strip. now apply strip_nil_iff. Qed.

End StripFacts.

Module ProcessorExtras.
Import Pipeline Processor ProcessorInputs StripFacts ChunkerClaims.

Definition not_blank (c : pystr) : Prop := strip c <> [].

Lemma split_loop_not_blank (cs ov : Z) (t : pystr) :
  forall fuel start acc res,
  Forall not_blank acc -> Chunker.split_loop cs ov t fuel start acc = Some res ->
  Forall not_blank res.
Proof.
  intros fuel. induction fuel as [|fuel IH]; intros start acc res Hacc Hrun;
    simpl in Hrun; [discriminate|].
  assert (Hpush : forall e, Forall not_blank (Chunker.push_chunk t acc start e)).
  { intros e. unfold Chunker.push_chunk.
    destruct (strip (slice t start e)) as [|x xs] eqn:Hs; [exact Hacc|].
    apply Forall_app; split; [exact Hacc|]. constructor; [|constructor].
    intros Hn. rewrite <- Hs in Hn. apply strip_strip_nil in Hn. congruence. }
  destruct (start <? len t); [|injection Hrun as <-; exact Hacc].
  destruct (Chunker.cut_end cs t start - ov <=? 0); [injection Hrun as <-; apply Hpush|].
  eapply IH; [apply Hpush | exact Hrun].
Qed.

Lemma split_not_blank (cs ov : Z) (t : pystr) (fuel : nat) (res : list pystr) :
  strip t <> [] -> Chunker.split_text_into_chunks cs ov t fuel = Some res ->
  Forall not_blank res.
Proof.
  unfold Chunker.split_text_into_chunks. intros Ht Hrun.
  destruct (len t <=? cs).
  - injection Hrun as <-. constructor; [exact Ht | constructor].
  - eapply split_loop_not_blank; [constructor | exact Hrun].
Qed.

Lemma with_metadata_contents (f : UploadedFile) (ext : pystr) (i : Z) (l : list pystr) :
  map chunk_content (with_metadata f ext i l) = l.
Proof. revert i; induction l as [|x l IH]; intros i; simpl; [reflexivity|]. now rewrite IH. Qed.

Lemma with_metadata_nth (f : UploadedFile) (ext : pystr) (l : list pystr) :
  forall n i, nth_error (with_metadata f ext i l) n =
    option_map (fun chunk =>
      {| chunk_content := chunk;
         chunk_metadata := [(lit "source", file_name f);
                            (lit "chunk_id", str_int (i + Z.of_nat n));
                            (lit "file_type", ext)] |}) (nth_error l n).
Proof.
  induction l as [|x l IH]; intros [|n] i; cbn [with_metadata nth_error option_map];
    try reflexivity.
  - replace (i + Z.of_nat 0) with i by lia. reflexivity.
  - rewrite IH. replace (i + Z.of_nat (S n)) with (i + 1 + Z.of_nat n) by lia.
    reflexivity.
Qed.

(** How [process_file] ends, once the text is extracted. *)
Lemma process_file_cases `{PdfLibrary} `{DocxLibrary} `{Codecs}
  (dp : DocumentProcessor) (fuel : nat) (f : UploadedFile) (chunks : list ChunkDict) :
  process_file dp fuel f = Some chunks ->
  chunks = [] \/
  exists text l, strip text <> [] /\
    Chunker.split_text_into_chunks (chunk_size dp) (chunk_overlap dp) text fuel = Some l /\
    chunks = with_metadata f (file_extension f) 0 l.
Proof.
  unfold process_file. intros Hrun.
  match type of Hrun with
  | match ?m with Ok _ => _ | Raise _ => _ end = _ => destruct m as [text|e]
  end; [|left; congruence].
  destruct (is_empty (strip text)) eqn:E; [left; congruence|].
  destruct (Chunker.split_text_into_chunks (chunk_size dp) (chunk_overlap dp) text fuel)
    as [l|] eqn:Hs; simpl in Hrun; [|discriminate].
  right. exists text, l. split; [destruct (strip text); discriminate|].
  split; [exact Hs | congruence].
Qed.


Section Libraries.
Context `{PdfLibrary} `{DocxLibrary} `{Codecs}.

(** [process_file] numbers its chunks from 0 in order: the chunk at
    position [i] has the metadata [{"source": name, "chunk_id": i,
    "file_type": extension}]. *)
Theorem process_file_chunk_ids (dp : DocumentProcessor) (fuel : nat) (f : UploadedFile)
  (chunks : list ChunkDict) (i : nat) (c : ChunkDict) :
  process_file dp fuel f = Some chunks -> nth_error chunks i = Some c ->
  chunk_metadata c = [(lit "source", file_name f); (lit "chunk_id", str_int (Z.of_nat i));
                      (lit "file_type", file_extension f)].
Proof.
  intros Hrun Hi. destruct (process_file_cases dp fuel f chunks Hrun)
    as [->|[text [l [_ [_ ->]]]]]; [destruct i; discriminate|].
  rewrite with_metadata_nth in Hi.
  destruct (nth_error l i); simpl in Hi; [|discriminate].
  injection Hi as <-. reflexivity.
Qed.

(** [process_file] never returns a chunk that is empty or all whitespace. *)
Theorem process_file_not_blank (dp : DocumentProcessor) (fuel : nat) (f : UploadedFile)
  (chunks : list ChunkDict) :
  process_file dp fuel f = Some chunks ->
  Forall (fun c => strip (chunk_content c) <> []) chunks.
Proof.
  intros Hrun. destruct (process_file_cases dp fuel f chunks Hrun)
    as [->|[text [l [Ht [Hs ->]]]]]; [constructor|].
  apply (proj1 (Forall_map chunk_content (fun x => strip x <> []) _)).
  rewrite with_metadata_contents.
  exact (split_not_blank _ _ _ _ _ Ht Hs).
Qed.

(** A file whose extension is not [pdf], [docx] or [txt] gives no chunk:
    the [ValueError] is caught inside [process_file]. *)
Theorem unsupported_extension_no_chunks (dp : DocumentProcessor) (fuel : nat)
  (f : UploadedFile) :
  file_extension f <> lit "pdf" -> file_extension f <> lit "docx" ->
  file_extension f <> lit "txt" ->
  process_file dp fuel f = Some [].
Proof.
  intros Hp Hd Ht. unfold process_file, pystr_eqb.
  destruct (list_eq_dec ascii_dec (file_extension f) (lit "pdf")); [congruence|].
  destruct (list_eq_dec ascii_dec (file_extension f) (lit "docx")); [congruence|].
  destruct (list_eq_dec ascii_dec (file_extension f) (lit "txt")); [congruence|].
  reflexivity.
Qed.

(** A PDF whose reader raises, or none of whose pages gives any text,
    gives no chunk. *)
Theorem unreadable_pdf_no_chunks (dp : DocumentProcessor) (fuel : nat) (f : UploadedFile) :
  file_extension f = lit "pdf" ->
  (exists e, pdf_pages (file_bytes f) = Raise e) \/
  (exists pages, pdf_pages (file_bytes f) = Ok pages /\
                 Forall (fun page => forall t, page = Ok t -> t = []) pages) ->
  process_file dp fuel f = Some [].
Proof.
  intros Hext Hpdf. unfold process_file. rewrite Hext. cbn -[extract_from_pdf].
  unfold extract_from_pdf.
  destruct Hpdf as [[e ->]|[pages [-> Hpages]]]; [reflexivity|].
  assert (Hnil : forall n, pages_text n pages = []).
  { induction Hpages as [|page pages Hp _ IH]; intros n; [reflexivity|]. simpl.
    rewrite IH, app_nil_r.
    destruct page as [[|x t]|e]; [reflexivity| |reflexivity].
    discriminate (Hp _ eq_refl). }
  rewrite Hnil. reflexivity.
Qed.

(** [_extract_from_txt] never raises: what UTF-8 cannot decode is decoded
    as Latin-1, which accepts every byte, so CP1252 is never tried. *)
Theorem extract_from_txt_latin1_fallback (f : UploadedFile) :
  extract_from_txt f =
    Ok (match decode_utf8 (file_bytes f) with
        | Ok text => text
        | Raise _ => map ascii_of_byte (file_bytes f)
        end).
Proof. unfold extract_from_txt. simpl. destruct (decode_utf8 (file_bytes f)); reflexivity. Qed.

End Libraries.

Lemma split_on_no_sep (sep : ascii) (e : pystr) : ~ In sep e -> split_on sep e = [e].
Proof.
  induction e as [|c e IH]; intros Hn; [reflexivity|]. simpl.
  destruct (Ascii.eqb_spec c sep) as [->|]; [exfalso; apply Hn; now left|].
  rewrite IH; [reflexivity|]. intros Hin; apply Hn; now right.
Qed.

Lemma split_on_sep_app (sep : ascii) (x e : pystr) :
  exists w ws, split_on sep (x ++ sep :: e) = w :: ws ++ split_on sep e.
Proof.
  induction x as [|c x IH]; simpl.
  - rewrite Ascii.eqb_refl. exists [], []. reflexivity.
  - destruct IH as [w [ws Hx]]. rewrite Hx.
    destruct (c =? sep)%char; [exists [], (w :: ws) | exists (c :: w), ws]; reflexivity.
Qed.

Lemma last_app_nonnil {A} (l l' : list A) (d : A) : l' <> [] -> last (l ++ l') d = last l' d.
Proof.
  intros Hl. induction l as [|x l IH]; [reflexivity|].
  rewrite <- app_comm_cons, <- IH. destruct (l ++ l') eqn:E; [|reflexivity].
  apply app_eq_nil in E. tauto.
Qed.

(** The extension [process_file] dispatches on is the lowercased text after
    the last dot of the file name. *)
Theorem file_extension_after_last_dot (base e : pystr) (data : list Byte.byte) :
  ~ In "."%char e ->
  file_extension {| file_name := base ++ "."%char :: e; file_bytes := data |} = lower e.
Proof.
  intros He. unfold file_extension. cbn [file_name].
  destruct (split_on_sep_app "."%char base e) as [w [ws ->]].
  rewrite split_on_no_sep by exact He.
  change (w :: ws ++ [e]) with ((w :: ws) ++ [e]).
  rewrite last_app_nonnil by discriminate. reflexivity.
Qed.

Lemma file_extension_after_last_dot_witness :
  file_extension {| file_name := lit "report.v2" ++ "."%char :: lit "TXT";
                    file_bytes := [] |} = lower (lit "TXT").
Proof. apply file_extension_after_last_dot. simpl. intuition discriminate. Defined.

Lemma process_file_chunk_ids_witness :
  process_file small_processor 10 notes_txt = Some notes_chunks /\
  nth_error notes_chunks 1 = Some notes_second_chunk /\
  chunk_metadata notes_second_chunk =
    [(lit "source", file_name notes_txt); (lit "chunk_id", str_int (Z.of_nat 1));
     (lit "file_type", file_extension notes_txt)].
Proof.
  assert (Hrun : process_file small_processor 10 notes_txt = Some notes_chunks)
    by (vm_compute; reflexivity).
  assert (Hi : nth_error notes_chunks 1 = Some notes_second_chunk)
    by (vm_compute; reflexivity).
  split; [exact Hrun|]. split; [exact Hi|].
  exact (process_file_chunk_ids _ _ _ _ _ _ Hrun Hi).
Defined.

Lemma process_file_not_blank_witness :
  process_file small_processor 10 notes_txt = Some notes_chunks /\
  Forall (fun c => strip (chunk_content c) <> []) notes_chunks.
Proof.
  assert (Hrun : process_file small_processor 10 notes_txt = Some notes_chunks)
    by (vm_compute; reflexivity).
  split; [exact Hrun | exact (process_file_not_blank _ _ _ _ Hrun)].
Defined.

Lemma unsupported_extension_no_chunks_witness :
  process_file default_processor 10 (upload "notes.md" "# Notes") = Some [].
Proof. apply unsupported_extension_no_chunks; vm_compute; discriminate. Defined.

Lemma unreadable_pdf_no_chunks_witness :
  process_file default_processor 10 (upload "scan.PDF" "%PDF-1.4") = Some [].
Proof.
  apply unreadable_pdf_no_chunks; [vm_compute; reflexivity|].
  right. eexists. split; [reflexivity|].
  constructor; [intros t Ht; injection Ht as <-; reflexivity|].
  constructor; [intros t Ht; discriminate | constructor].
Defined.

End ProcessorExtras.

(** * Further properties of the Gemini client and the vector store *)
Module GeminiExtras.
Import Pipeline Processor GeminiRest PipelineInputs.

Lemma pystr_eqb_refl (a : pystr) : pystr_eqb a a = true.
Proof. unfold pystr_eqb. destruct (list_eq_dec ascii_dec a a); congruence. Qed.

Lemma pystr_eqb_false (a b : pystr) : pystr_eqb a b = false -> a <> b.
Proof. unfold pystr_eqb. destruct (list_eq_dec ascii_dec a b); congruence. Qed.

Lemma last_n_idem {A} (n : nat) (l : list A) : last_n n (last_n n l) = last_n n l.
Proof.
  unfold last_n. rewrite length_skipn.
  replace (length l - (length l - n) - n)%nat with 0%nat by lia. reflexivity.
Qed.

Lemma dict_index_missing (d : metadata_dict) (k : pystr) :
  (forall v, ~ In (k, v) d) -> dict_index d k = Raise (lit "'" ++ k ++ lit "'").
Proof.
  induction d as [|[k' v] d IH]; intros Hk; [reflexivity|]. simpl.
  destruct (list_eq_dec ascii_dec k k') as [->|].
  - exfalso. apply (Hk v). now left.
  - apply IH. intros v' Hin. apply (Hk v'). now right.
Qed.

Lemma history_context_raises (msgs : list message) (msg : message) (e : pystr) :
  In msg msgs -> history_line msg = Raise e -> exists e', history_context msgs = Raise e'.
Proof.
  induction msgs as [|m msgs IH]; intros Hin Hl; [destruct Hin|]. simpl.
  destruct Hin as [->|Hin].
  - rewrite Hl. eauto.
  - destruct (history_line m); [|eauto].
    destruct (IH Hin Hl) as [e' ->]. eauto.
Qed.

Section Client.
Context {C : Type} `{GenAIClient C}.

(** [GeminiClient()] succeeds only with an API key that is set, non-empty
    and not the placeholder, and then wraps the client built from that key. *)
Theorem gemini_client_init_key (env_key : option pystr) (m : pystr)
  (genai_client : pystr -> exc C) (g : GeminiClient C) :
  gemini_client_init env_key m genai_client = Ok g ->
  exists k, env_key = Some k /\ k <> [] /\ k <> placeholder_key /\
            genai_client k = Ok (client g) /\ model_name g = m.
Proof.
  unfold gemini_client_init. intros Hinit.
  destruct env_key as [k|].
  - destruct (is_empty k) eqn:He; [discriminate|].
    destruct (pystr_eqb k placeholder_key) eqn:Hp; [discriminate|].
    simpl in Hinit. destruct (genai_client k) as [c|e] eqn:Hc; [|discriminate].
    injection Hinit as <-. exists k. repeat split.
    + destruct k; discriminate.
    + now apply pystr_eqb_false.
    + exact Hc.
  - rewrite pystr_eqb_refl, orb_true_r in Hinit. discriminate.
Qed.

(** [generate_chat_response] only sees the last five messages of the
    history. *)
Theorem chat_uses_last_five (g : GeminiClient C) (history : list message) (q : pystr) :
  generate_chat_response g history q = generate_chat_response g (last_n 5 history) q.
Proof. unfold generate_chat_response. now rewrite last_n_idem. Qed.

(** One message among the last five without a ["role"] key drops the whole
    history: the [KeyError] is caught and the question is sent alone. *)
Theorem malformed_history_dropped (g : GeminiClient C) (history : list message)
  (msg : message) (q : pystr) :
  In msg (last_n 5 history) -> (forall v, ~ In (lit "role", v) msg) ->
  generate_chat_response g history q = generate_response g q.
Proof.
  intros Hin Hrole.
  assert (Hl : history_line msg = Raise (lit "'" ++ lit "role" ++ lit "'")).
  { unfold history_line. now rewrite dict_index_missing. }
  destruct (history_context_raises _ _ _ Hin Hl) as [e He].
  unfold generate_chat_response. now rewrite He.
Qed.

(** Unlike [RAGPipeline.query], [generate_chat_response] raises when the
    model always raises: its fallback calls the model again, outside any
    [try]. *)
Theorem chat_model_failure_raises (g : GeminiClient C) (history : list message)
  (q e : pystr) :
  (forall m prompt, generate_content (client g) m prompt = Raise e) ->
  generate_chat_response g history q = Raise (lit "Failed to generate response: " ++ e).
Proof.
  intros Hfail. unfold generate_chat_response, generate_response.
  destruct (history_context (last_n 5 history)); simpl; rewrite !Hfail; reflexivity.
Qed.

(** [test_connection] holds exactly when the model gives a non-empty text
    whose stripped, lowercased form contains ["successful"]; the apology
    [generate_response] puts in place of an empty text never counts. *)
Theorem test_connection_iff (g : GeminiClient C) :
  test_connection g = true <->
  exists t, generate_content (client g) (model_name g) connection_test_prompt = Ok (Some t) /\
            t <> [] /\ contains (lit "successful") (lower (strip t)) = true.
Proof.
  unfold test_connection, generate_response.
  assert (Hapology : contains (lit "successful") (lower empty_response_apology) = false)
    by (vm_compute; reflexivity).
  destruct (generate_content (client g) (model_name g) connection_test_prompt)
    as [[[|x t]|]|e]; split.
  - rewrite Hapology. discriminate.
  - intros [t' [Ht' [Hne _]]]. injection Ht' as Ht'. subst t'. congruence.
  - intros Hc. exists (x :: t). split; [reflexivity|]. split; [discriminate | exact Hc].
  - intros [t' [Ht' [_ Hc]]]. inversion Ht'. subst. exact Hc.
  - rewrite Hapology. discriminate.
  - intros [t' [Ht' _]]. discriminate.
  - discriminate.
  - intros [t' [Ht' _]]. discriminate.
Qed.

End Client.

Lemma gemini_client_init_key_witness :
  gemini_client_init (Some (lit "AIza-test")) (lit "gemini-2.5-flash")
    (fun _ => Ok (Replies (Some (lit "ok")))) =
    Ok {| model_name := lit "gemini-2.5-flash"; client := Replies (Some (lit "ok")) |} /\
  exists k, Some (lit "AIza-test") = Some k /\ k <> [] /\ k <> placeholder_key /\
    (fun _ : pystr => @Ok FakeModel (Replies (Some (lit "ok")))) k =
      Ok (Replies (Some (lit "ok"))) /\
    lit "gemini-2.5-flash" = lit "gemini-2.5-flash".
Proof.
  assert (Hinit : gemini_client_init (Some (lit "AIza-test")) (lit "gemini-2.5-flash")
    (fun _ => Ok (Replies (Some (lit "ok")))) =
    Ok {| model_name := lit "gemini-2.5-flash"; client := Replies (Some (lit "ok")) |})
    by (vm_compute; reflexivity).
  split; [exact Hinit | exact (gemini_client_init_key _ _ _ _ Hinit)].
Defined.

Definition chat_client (m : FakeModel) : GeminiClient FakeModel :=
  {| model_name := lit "gemini-2.5-flash"; client := m |}.

Lemma malformed_history_dropped_witness :
  generate_chat_response (chat_client (Replies (Some (lit " fine "))))
    [[(lit "content", lit "hi")]] (lit "hello") =
  generate_response (chat_client (Replies (Some (lit " fine ")))) (lit "hello").
Proof.
  apply (malformed_history_dropped _ _ [(lit "content", lit "hi")]).
  - vm_compute. now left.
  - intros v [Hv|[]]. discriminate.
Defined.

Lemma chat_model_failure_raises_witness :
  generate_chat_response (chat_client (Fails (lit "quota exceeded"))) [] (lit "hello") =
    Raise (lit "Failed to generate response: " ++ lit "quota exceeded").
Proof. apply chat_model_failure_raises. reflexivity. Defined.

End GeminiExtras.

(** * Further properties of the RAG pipeline *)
Module PipelineExtras.
Import Pipeline GeminiRest PipelineInputs PipelineClaims StripFacts.

Definition score_desc (a b : DocDict) : Prop := (score b <= score a)%Q.

Lemma insert_by_score_hd (x y : DocDict) (l : list DocDict) :
  score_desc y x -> HdRel score_desc y l -> HdRel score_desc y (insert_by_score x l).
Proof.
  intros Hyx Hl. destruct l as [|z l]; simpl; [constructor; exact Hyx|].
  destruct (Qle_bool (score x) (score z)); constructor; [now inversion Hl | exact Hyx].
Qed.

Lemma insert_by_score_sorted (x : DocDict) (l : list DocDict) :
  Sorted score_desc l -> Sorted score_desc (insert_by_score x l).
Proof.
  induction l as [|y l IH]; intros Hs; simpl; [repeat constructor|].
  inversion Hs as [|? ? Hl Hhd]; subst.
  destruct (Qle_bool (score x) (score y)) eqn:E.
  - apply Qle_bool_iff in E. constructor; [now apply IH|].
    apply insert_by_score_hd; assumption.
  - constructor; [exact Hs|]. constructor. unfold score_desc.
    apply Qlt_le_weak, Qnot_le_lt. intros Hle. apply Qle_bool_iff in Hle. congruence.
Qed.

Lemma sort_by_score_desc_sorted (l : list DocDict) : Sorted score_desc (sort_by_score_desc l).
Proof.
  unfold sort_by_score_desc.
  assert (Hgen : forall l acc, Sorted score_desc acc ->
    Sorted score_desc (fold_left (fun acc x => insert_by_score x acc) l acc)).
  { induction l0 as [|x l0 IH]; intros acc Hacc; simpl; [exact Hacc|].
    apply IH, insert_by_score_sorted, Hacc. }
  apply Hgen. constructor.
Qed.

Fixpoint total_len (parts : list pystr) : Z :=
  match parts with [] => 0 | x :: parts' => len x + total_len parts' end.

Lemma context_parts_total (max_len i cur : Z) (docs : list DocDict) :
  cur <= max_len -> total_len (context_parts max_len i cur docs) + cur <= max_len.
Proof.
  revert i cur; induction docs as [|d docs IH]; intros i cur Hcur;
    cbn [context_parts total_len]; [lia|].
  destruct (Z.ltb_spec max_len (cur + len (doc_text i d))); cbn [total_len]; [lia|].
  specialize (IH (i + 1) (cur + len (doc_text i d)) ltac:(lia)). lia.
Qed.

Lemma len_app (a b : pystr) : len (a ++ b) = len a + len b.
Proof. unfold len. rewrite length_app. lia. Qed.

Lemma join_len (sep : pystr) (parts : list pystr) :
  len (join sep parts) = total_len parts + len sep * Z.of_nat (length parts - 1).
Proof.
  induction parts as [|x [|y parts] IH].
  - unfold len. simpl. lia.
  - simpl. lia.
  - change (join sep (x :: y :: parts)) with (x ++ sep ++ join sep (y :: parts)).
    change (total_len (x :: y :: parts)) with (len x + total_len (y :: parts)).
    rewrite !len_app, IH.
    replace (length (x :: y :: parts) - 1)%nat with (S (length (y :: parts) - 1))
      by (simpl; lia).
    rewrite Nat2Z.inj_succ. nia.
Qed.

Section Interfaces.
Context {VS C : Type} `{VectorStore VS} `{GenAIClient C}.

(** [_retrieve_documents] returns the hits of the store search reordered by
    descending score, each score at least the next one, and no hit at all
    when the search raises. *)
Theorem retrieve_sorts_search (p : RAGPipeline VS C) (q : pystr) (k : Z) :
  match search_similar_documents (vector_store p) q k with
  | Ok hits => Permutation (retrieve_documents p q k) hits /\
               Sorted score_desc (retrieve_documents p q k)
  | Raise _ => retrieve_documents p q k = []
  end.
Proof.
  unfold search_similar_documents, retrieve_documents.
  destruct (similarity_search_with_score (vector_store p) q k); [|reflexivity].
  split; [apply sort_by_score_desc_perm | apply sort_by_score_desc_sorted].
Qed.

(** A store search that raises is not reported as an error: [query]
    answers that nothing relevant was found, with no source. *)
Theorem search_failure_no_information (p : RAGPipeline VS C) (q e : pystr) (k : Z) :
  similarity_search_with_score (vector_store p) q k = Raise e ->
  query p q k = Ok {| answer := no_information_answer; sources := [] |}.
Proof.
  intros He. unfold query, query_body, retrieve_documents. now rewrite He.
Qed.

(** The answer from the model's text: an empty or missing text gives the
    apology of [GeminiClient], a text of whitespace only the apology of
    [_generate_answer], any other text the text stripped. *)
Theorem answer_from_model_text (p : RAGPipeline VS C) (q ctx : pystr) (r : option pystr) :
  generate_content (client (gemini_client p)) (model_name (gemini_client p))
    (build_prompt q ctx) = Ok r ->
  generate_answer p q ctx =
    match r with
    | Some ((_ :: _) as t) => if is_empty (strip t) then no_answer_apology else strip t
    | _ => empty_response_apology
    end.
Proof.
  intros Hr. unfold generate_answer, generate_response. rewrite Hr.
  destruct r as [[|x t]|]; try (vm_compute; reflexivity).
  destruct (strip (x :: t)) as [|y s] eqn:E; [reflexivity|]. simpl.
  destruct (strip (y :: s)) eqn:E2; [|reflexivity].
  rewrite <- E in E2. apply strip_strip_nil in E2. congruence.
Qed.

(** The context [_prepare_context] builds exceeds the budget by at most one
    character per kept block after the first: the ["\n"] separators. *)
Theorem context_overrun_bound (p : RAGPipeline VS C) (docs : list DocDict) :
  0 <= max_context_length p ->
  len (prepare_context p docs) <=
    max_context_length p +
    Z.of_nat (length (context_parts (max_context_length p) 0 0 docs) - 1).
Proof.
  intros Hmax. unfold prepare_context. rewrite join_len.
  pose proof (context_parts_total (max_context_length p) 0 0 docs Hmax).
  change (len nl) with 1. lia.
Qed.

End Interfaces.

Definition broken_pipeline : RAGPipeline FakeStore FakeModel :=
  {| vector_store := Broken (lit "index missing");
     gemini_client := {| model_name := lit "gemini-2.5-flash"; client := Replies None |};
     max_context_length := 4000 |}.

Lemma search_failure_no_information_witness :
  query broken_pipeline (lit "q") 4 =
    Ok {| answer := no_information_answer; sources := [] |}.
Proof. eapply search_failure_no_information. reflexivity. Defined.

Lemma answer_from_model_text_witness :
  generate_answer (fake_pipeline 4000 (Replies (Some (lit " ")))) (lit "q") (lit "ctx") =
    no_answer_apology.
Proof. apply (answer_from_model_text _ _ _ (Some (lit " "))). reflexivity. Defined.

Lemma context_overrun_bound_witness :
  len (prepare_context (fake_pipeline 34 (Replies None)) [hit_x; hit_x]) <=
    34 + Z.of_nat (length (context_parts 34 0 0 [hit_x; hit_x]) - 1).
Proof. apply (context_overrun_bound (fake_pipeline 34 (Replies None))). simpl. lia. Defined.

End PipelineExtras.

(** * Properties of the Streamlit session *)
Module AppInputs.
Import Pipeline Processor GeminiRest App PipelineInputs ProcessorInputs.

(** An index that gives every chunk the score 1. *)
#[export] Instance fake_faiss : @FaissBuilder FakeStore := {
  from_documents docs := Ok (Stores (map (fun d => (d, 1%Q)) docs))
}.

Definition api_key : option pystr := Some (lit "AIza-test").

Definition blue_model (_ : pystr) : exc FakeModel :=
  Ok (Replies (Some (lit " The sky is blue. "))).

Definition sky_txt : UploadedFile := upload "sky.txt" "The sky is blue.".

Definition processed_session : SessionState FakeStore FakeModel :=
  Eval vm_compute in
    match run_action api_key blue_model 10 initial_session (ProcessDocuments [sky_txt]) with
    | Some (Ok s) => s
    | _ => initial_session
    end.

Definition sky_question : pystr := lit "What colour is the sky?".

Lemma processed_reachable : reachable api_key blue_model processed_session.
Proof.
  apply reach_step with (fuel := 10%nat) (s := initial_session)
    (a := ProcessDocuments [sky_txt]); [apply reach_initial | vm_compute; reflexivity].
Qed.

Lemma asked_reachable :
  reachable api_key blue_model (ask processed_session sky_question).
Proof.
  apply reach_step with (fuel := 10%nat) (s := processed_session)
    (a := AskQuestion sky_question); [apply processed_reachable | reflexivity].
Qed.

Definition stopped_session : SessionState FakeStore FakeModel :=
  ask_interrupted processed_session sky_question.

Lemma stopped_reachable : reachable api_key blue_model stopped_session.
Proof.
  apply reach_step with (fuel := 10%nat) (s := processed_session)
    (a := AskQuestionStopped sky_question); [apply processed_reachable | reflexivity].
Qed.

Lemma stopped_then_asked_reachable :
  reachable api_key blue_model (ask stopped_session sky_question).
Proof.
  apply reach_step with (fuel := 10%nat) (s := stopped_session)
    (a := AskQuestion sky_question); [apply stopped_reachable | reflexivity].
Qed.

End AppInputs.

Module AppExtras.
Import Pipeline Processor GeminiRest App PipelineInputs ProcessorInputs AppInputs.

Lemma query_ok {VS C} `{VectorStore VS} `{GenAIClient C}
  (p : RAGPipeline VS C) (q : pystr) (k : Z) : exists r, query p q k = Ok r.
Proof. unfold query, try_except. destruct (query_body p q k); eauto. Qed.

Section Session.
Context {VS C : Type} `{VectorStore VS} `{GenAIClient C} `{FaissBuilder VS}
  `{PdfLibrary} `{DocxLibrary} `{Codecs}.
Variable env_key : option pystr.
Variable genai_client : pystr -> exc C.

(** The store, the pipeline and the flag of a session agree. *)
Definition session_consistent (s : SessionState VS C) : Prop :=
  (exists vs p, session_vector_store s = Some vs /\ rag_pipeline s = Some p /\
                vector_store p = vs /\ max_context_length p = 4000 /\
                documents_processed s = true) \/
  (session_vector_store s = None /\ rag_pipeline s = None /\
   documents_processed s = false).

Definition to_document (c : ChunkDict) : Document :=
  {| page_content := chunk_content c; doc_metadata := chunk_metadata c |}.

Lemma process_uploaded_files_cases (fuel : nat) (s s' : SessionState VS C)
  (files : list UploadedFile) :
  process_uploaded_files env_key genai_client fuel s files = Some (Ok s') ->
  s' = s \/
  exists g all_chunks vs,
    get_gemini_client env_key genai_client = Some g /\
    process_all fuel files = Some all_chunks /\ all_chunks <> [] /\
    from_documents (map to_document all_chunks) = Ok vs /\
    s' = {| messages := messages s; session_vector_store := Some vs;
            rag_pipeline := Some {| vector_store := vs; gemini_client := g;
                                    max_context_length := 4000 |};
            documents_processed := true |}.
Proof.
  unfold process_uploaded_files. intros Hrun.
  destruct (get_gemini_client env_key genai_client) as [g|]; [|left; congruence].
  destruct (process_all fuel files) as [[|c all]|]; [left; congruence| |discriminate].
  unfold create_vector_store in Hrun.
  destruct (from_documents _) as [vs|e] eqn:Hvs; [|discriminate].
  right. exists g, (c :: all), vs. repeat split; try congruence. exact Hvs.
Qed.

Lemma ask_frame (s : SessionState VS C) (prompt : pystr) :
  session_vector_store (ask s prompt) = session_vector_store s /\
  rag_pipeline (ask s prompt) = rag_pipeline s /\
  documents_processed (ask s prompt) = documents_processed s.
Proof.
  unfold ask. destruct (is_empty prompt); [repeat split|].
  destruct (negb (documents_processed s)); [repeat split|].
  destruct (rag_pipeline s) eqn:E; repeat split; exact E.
Qed.

Lemma ask_interrupted_frame (s : SessionState VS C) (prompt : pystr) :
  session_vector_store (ask_interrupted s prompt) = session_vector_store s /\
  rag_pipeline (ask_interrupted s prompt) = rag_pipeline s /\
  documents_processed (ask_interrupted s prompt) = documents_processed s.
Proof.
  unfold ask_interrupted. destruct (is_empty prompt); [repeat split|].
  destruct (negb (documents_processed s)); [repeat split|].
  destruct (rag_pipeline s) eqn:E; repeat split; exact E.
Qed.

Lemma reachable_consistent (s : SessionState VS C) :
  reachable env_key genai_client s -> session_consistent s.
Proof.
  induction 1 as [|fuel s a s' _ IH Hrun].
  - right. auto.
  - destruct a as [[|f files]|prompt|prompt| |]; simpl in Hrun.
    + injection Hrun as <-. exact IH.
    + destruct (process_uploaded_files_cases _ _ _ _ Hrun)
        as [->|[g [all [vs [_ [_ [_ [_ ->]]]]]]]]; [exact IH|].
      left. eexists _, _. repeat split; reflexivity.
    + injection Hrun as <-. destruct (ask_frame s prompt) as [E1 [E2 E3]].
      unfold session_consistent. rewrite E1, E2, E3. exact IH.
    + injection Hrun as <-. destruct (ask_interrupted_frame s prompt) as [E1 [E2 E3]].
      unfold session_consistent. rewrite E1, E2, E3. exact IH.
    + injection Hrun as <-. exact IH.
    + injection Hrun as <-. right. auto.
Qed.

(** A turn of the chat: the user's message, then the assistant's reply
    unless the run was stopped before it. *)
Definition turn_ok (t : ChatMessage * option ChatMessage) : Prop :=
  role (fst t) = lit "user" /\
  match snd t with
  | None => True
  | Some a => role a = lit "assistant" /\ msg_sources a <> None
  end.

Definition turn_messages (t : ChatMessage * option ChatMessage) : list ChatMessage :=
  fst t :: match snd t with None => [] | Some a => [a] end.

Lemma ask_interrupted_messages (s : SessionState VS C) (prompt : pystr) :
  messages (ask_interrupted s prompt) = messages s \/
  messages (ask_interrupted s prompt) =
    messages s ++ [{| role := lit "user"; msg_content := prompt; msg_sources := None |}].
Proof.
  unfold ask_interrupted. destruct (is_empty prompt); [now left|].
  destruct (negb (documents_processed s)); [now left|].
  destruct (rag_pipeline s); [now right | now left].
Qed.

Lemma ask_messages (s : SessionState VS C) (prompt : pystr) :
  messages (ask s prompt) = messages s \/
  exists p r, rag_pipeline s = Some p /\ query p prompt 4 = Ok r /\
    messages (ask s prompt) =
      messages s ++ [{| role := lit "user"; msg_content := prompt; msg_sources := None |};
                     {| role := lit "assistant"; msg_content := answer r;
                        msg_sources := Some (sources r) |}].
Proof.
  unfold ask. destruct (is_empty prompt); [now left|].
  destruct (negb (documents_processed s)); [now left|].
  destruct (rag_pipeline s) as [p|]; [|now left].
  right. destruct (query_ok p prompt 4) as [r Hr]. exists p, r.
  split; [reflexivity|]. split; [exact Hr|]. simpl. now rewrite Hr.
Qed.

(** Every reachable session has a store, a pipeline built on that store with
    the budget 4000 and the flag set, or none of the three: the branch
    "RAG pipeline not initialized" (lines 146-148) is never taken. *)
Theorem session_state_consistent (s : SessionState VS C) :
  reachable env_key genai_client s -> session_consistent s.
Proof. apply reachable_consistent. Qed.

(** In every reachable session, stopped runs included, a question run that
    is not stopped, once documents are processed, is answered: the user's
    message and the pipeline's answer with its sources are appended, never
    the "Error generating response" message of lines 175-178. *)
Theorem ask_processed_answers (s : SessionState VS C) (prompt : pystr) :
  reachable env_key genai_client s -> documents_processed s = true -> prompt <> [] ->
  exists p r, rag_pipeline s = Some p /\ query p prompt 4 = Ok r /\
    messages (ask s prompt) =
      messages s ++ [{| role := lit "user"; msg_content := prompt; msg_sources := None |};
                     {| role := lit "assistant"; msg_content := answer r;
                        msg_sources := Some (sources r) |}].
Proof.
  intros Hreach Hdone Hprompt.
  destruct (reachable_consistent s Hreach) as [[vs [p [_ [Hp _]]]]|[_ [_ Hnot]]];
    [|congruence].
  destruct (query_ok p prompt 4) as [r Hr]. exists p, r.
  split; [exact Hp|]. split; [exact Hr|].
  unfold ask. destruct prompt as [|x prompt]; [congruence|]. simpl.
  rewrite Hdone, Hp. simpl. now rewrite Hr.
Qed.

(** A successful "Process Documents" run either leaves the session as it
    was, or replaces the store by one built from the chunks of this batch
    only, keeping the chat messages: documents of an earlier batch are no
    longer searched. *)
Theorem processing_replaces_store (fuel : nat) (s s' : SessionState VS C)
  (files : list UploadedFile) :
  process_uploaded_files env_key genai_client fuel s files = Some (Ok s') ->
  s' = s \/
  (messages s' = messages s /\ documents_processed s' = true /\
   exists all_chunks vs,
     process_all fuel files = Some all_chunks /\ all_chunks <> [] /\
     from_documents (map to_document all_chunks) = Ok vs /\
     session_vector_store s' = Some vs /\
     option_map vector_store (rag_pipeline s') = Some vs).
Proof.
  intros Hrun. destruct (process_uploaded_files_cases _ _ _ _ Hrun)
    as [->|[g [all [vs [_ [Hall [Hne [Hvs ->]]]]]]]]; [now left|].
  right. split; [reflexivity|]. split; [reflexivity|].
  exists all, vs. repeat split; assumption || reflexivity.
Qed.

(** The chat history of a reachable session is a sequence of turns: a
    user message, followed by an assistant message with its sources unless
    the run was stopped before the reply; the "Error generating response"
    message of lines 175-178, which has no sources, never appears. *)
Theorem transcript_turns (s : SessionState VS C) :
  reachable env_key genai_client s ->
  exists turns, messages s = concat (map turn_messages turns) /\ Forall turn_ok turns.
Proof.
  induction 1 as [|fuel s a s' _ IH Hrun].
  - exists []. split; [reflexivity | constructor].
  - destruct IH as [turns [Hm Ht]].
    destruct a as [[|f files]|prompt|prompt| |]; simpl in Hrun.
    + injection Hrun as <-. eauto.
    + destruct (process_uploaded_files_cases _ _ _ _ Hrun)
        as [->|[g [all [vs [_ [_ [_ [_ ->]]]]]]]]; eauto.
    + injection Hrun as <-.
      destruct (ask_messages s prompt) as [E|[p [r [_ [_ E]]]]]; rewrite E; [eauto|].
      exists (turns ++ [({| role := lit "user"; msg_content := prompt; msg_sources := None |},
                         Some {| role := lit "assistant"; msg_content := answer r;
                                 msg_sources := Some (sources r) |})]).
      split.
      * rewrite map_app, concat_app, Hm. reflexivity.
      * apply Forall_app. split; [exact Ht|]. constructor; [|constructor].
        repeat split; discriminate.
    + injection Hrun as <-.
      destruct (ask_interrupted_messages s prompt) as [E|E]; rewrite E; [eauto|].
      exists (turns ++ [({| role := lit "user"; msg_content := prompt; msg_sources := None |},
                         None)]).
      split.
      * rewrite map_app, concat_app, Hm. reflexivity.
      * apply Forall_app. split; [exact Ht|]. constructor; [|constructor].
        split; [reflexivity | exact I].
    + injection Hrun as <-. exists []. split; [reflexivity | constructor].
    + injection Hrun as <-. exists []. split; [reflexivity | constructor].
Qed.

End Session.

Lemma session_state_consistent_witness :
  reachable api_key blue_model processed_session /\ session_consistent processed_session.
Proof.
  split; [exact processed_reachable|].
  exact (session_state_consistent _ _ _ processed_reachable).
Defined.

Lemma ask_processed_answers_witness :
  exists p r, rag_pipeline stopped_session = Some p /\ query p sky_question 4 = Ok r /\
    messages (ask stopped_session sky_question) =
      messages stopped_session ++
        [{| role := lit "user"; msg_content := sky_question; msg_sources := None |};
         {| role := lit "assistant"; msg_content := answer r;
            msg_sources := Some (sources r) |}].
Proof.
  apply (ask_processed_answers api_key blue_model); [exact stopped_reachable | reflexivity |].
  discriminate.
Defined.

Lemma processing_replaces_store_witness :
  process_uploaded_files api_key blue_model 10 initial_session [sky_txt] =
    Some (Ok processed_session) /\
  (processed_session = initial_session \/
   (messages processed_session = messages (@initial_session FakeStore FakeModel) /\
    documents_processed processed_session = true /\
    exists all_chunks vs,
      process_all 10 [sky_txt] = Some all_chunks /\ all_chunks <> [] /\
      from_documents (map to_document all_chunks) = Ok vs /\
      session_vector_store processed_session = Some vs /\
      option_map vector_store (rag_pipeline processed_session) = Some vs)).
Proof.
  assert (Hrun : process_uploaded_files api_key blue_model 10 initial_session [sky_txt] =
                   Some (Ok processed_session)) by (vm_compute; reflexivity).
  split; [exact Hrun | exact (processing_replaces_store _ _ _ _ _ _ Hrun)].
Defined.

Lemma transcript_turns_witness :
  exists turns,
    messages (ask stopped_session sky_question) = concat (map turn_messages turns) /\
    Forall turn_ok turns.
Proof. exact (transcript_turns api_key blue_model _ stopped_then_asked_reachable). Defined.

End AppExtras.
